(** * User workflows of node-temporal-postgres-boilerplate

    A shallow embedding of the orchestration core of the repository:

    - [src/temporal/activities/user/activities.ts]   (Activity Layer)
    - [src/temporal/workflows/user/*.workflow.ts]    (Workflow Layer)
    - [src/temporal/clients/user.client.js]          (Dispatch Layer)
    - [src/api/user/user.controller.js], [create]    (HTTP caller)

    Asynchronous functions that may reject are computations in a state and
    exception monad [M] over a [World]: the [users] table behind the
    Sequelize model, the wall clock read by [Date.now()], the script of
    store failures the environment is going to inject, and the logs.
    A thrown error leaves the effects performed before it in place, as in
    JavaScript. *)

From Stdlib Require Import ZArith List String Bool Lia DecimalString.
From Stdlib Require Import Permutation.
From Stdlib Require DecimalPos DecimalZ.
Import ListNotations.

Local Open Scope string_scope.
Local Open Scope Z_scope.

(** ** JavaScript values *)

(** The primitive values that travel through the user workflows. *)
Inductive JsValue : Type :=
| JUndefined
| JNull
| JBool (b : bool)
| JNum (n : Z)
| JStr (s : string).

(** Strict equality [===] on primitives. *)
Definition JsValue_eqb (a b : JsValue) : bool :=
  match a, b with
  | JUndefined, JUndefined => true
  | JNull, JNull => true
  | JBool x, JBool y => Bool.eqb x y
  | JNum x, JNum y => Z.eqb x y
  | JStr x, JStr y => String.eqb x y
  | _, _ => false
  end.

(** A plain object: its own properties, in insertion order. *)
Definition JsObject : Type := list (string * JsValue).

(** Property read [o.k]; a missing property reads as [undefined]. *)
Fixpoint get_prop (k : string) (o : JsObject) : JsValue :=
  match o with
  | [] => JUndefined
  | (k', v) :: o' => if String.eqb k k' then v else get_prop k o'
  end.

(** [Object.keys]. *)
Definition keys (o : JsObject) : list string := map fst o.

(** A JavaScript [Error]: what [err.name] and [err.message] read. *)
Record JsError : Type := mkError {
  err_name : string;
  err_message : string
}.

(** Template-literal rendering of an integer, [`${n}`], for the ids and
    the epoch milliseconds that occur here (JavaScript switches to the
    exponent form from 1e21 on). *)
Definition string_of_Z (n : Z) : string :=
  NilZero.string_of_int (Z.to_int n).

(** ** The [users] table  ([src/types/user.types.ts], migration) *)

(** [UserAttributes]: one row.  Dates are epoch milliseconds. *)
Record UserAttributes : Type := mkUser {
  id : Z;
  name : string;
  email : string;
  mobile : string;
  suspend_status : bool;
  updated_by : option Z;
  created_by : option Z;
  deleted_by : option Z;
  created_on : Z;
  updated_on : Z;
  deleted_on : option Z
}.

(** The create input: the workflow's [UserData] interface, the three
    fields [createUserActivity] destructures from [UserCreationAttributes]. *)
Record UserData : Type := mkUserData {
  ud_name : string;
  ud_email : string;
  ud_mobile : string
}.

(** The update input.  The workflow takes a [Record<string, any>] and the
    controller hands it the request body as it came; the record holds the
    body's entries for the columns of the table, [id], [created_on] and
    [deleted_on] included, which [User.update] writes.  [None] is an absent
    key; for the nullable columns [Some None] is [null]; the values are of
    the column's type.  A key [updated_on] has no field: its value is
    replaced by the time of the update, and a body with no other column is
    an empty update.  Bodies with keys that name no column, or with values
    of another type, are not represented. *)
Record UserUpdateAttributes : Type := mkUpdate {
  up_name : option string;
  up_email : option string;
  up_mobile : option string;
  up_suspend_status : option bool;
  up_updated_by : option (option Z);
  up_created_by : option (option Z);
  up_deleted_by : option (option Z);
  up_id : option Z;
  up_created_on : option Z;
  up_deleted_on : option (option Z)
}.

(** The table as the store scans it: the rows in the order a query
    without [ORDER BY] yields them, and the sequence behind the
    auto-increment primary key. *)
Record Table : Type := mkTable {
  rows : list UserAttributes;
  next_id : Z
}.

Definition nullable (o : option Z) : JsValue :=
  match o with
  | Some n => JNum n
  | None => JNull
  end.

(** The value of column [c] in row [r]. *)
Definition column (c : string) (r : UserAttributes) : JsValue :=
  if String.eqb c "id" then JNum (id r)
  else if String.eqb c "name" then JStr (name r)
  else if String.eqb c "email" then JStr (email r)
  else if String.eqb c "mobile" then JStr (mobile r)
  else if String.eqb c "suspend_status" then JBool (suspend_status r)
  else if String.eqb c "updated_by" then nullable (updated_by r)
  else if String.eqb c "created_by" then nullable (created_by r)
  else if String.eqb c "deleted_by" then nullable (deleted_by r)
  else if String.eqb c "created_on" then JNum (created_on r)
  else if String.eqb c "updated_on" then JNum (updated_on r)
  else if String.eqb c "deleted_on" then nullable (deleted_on r)
  else JUndefined.

(** ** Worlds and the monad of asynchronous computations *)

Inductive Level : Type := Info | Warn | LError.

(** An activity call scheduled through [proxyActivities]. *)
Inductive ActivityCall : Type :=
| CheckDuplicateByMobile (mobile : string)
| CreateUser (userData : UserData)
| UpdateUser (id : Z) (userData : UserUpdateAttributes)
| GetUser (id : Z)
| GetAllUsers (limit offset : nat).

(** A workflow submission, [client.workflow.start(type, {taskQueue,
    workflowId, ...})]. *)
Record Submission : Type := mkSubmission {
  workflowType : string;
  taskQueue : string;
  workflowId : string
}.

Record World : Type := mkWorld {
  table : Table;
  (** what [Date.now()] reads *)
  clock : Z;
  (** the outcome the store is going to give to the coming queries, one
      entry per query: [Some e] makes the query reject with [e]; an
      exhausted script means no more failures *)
  faults : list (option JsError);
  (** activity calls recorded by the engine, oldest first *)
  history : list ActivityCall;
  (** workflows submitted to the engine, oldest first *)
  submitted : list Submission;
  (** log lines of the structured logger and the workflow log sink *)
  logs : list (Level * string)
}.

Inductive Outcome (A : Type) : Type :=
| Return (a : A)
| Throw (e : JsError).
Arguments Return {A} a.
Arguments Throw {A} e.

Definition M (A : Type) : Type := World -> Outcome A * World.

Definition ret {A} (a : A) : M A := fun w => (Return a, w).

Definition throw {A} (e : JsError) : M A := fun w => (Throw e, w).

Definition bind {A B} (c : M A) (k : A -> M B) : M B := fun w =>
  match c w with
  | (Return a, w') => k a w'
  | (Throw e, w') => (Throw e, w')
  end.

(** [try { c } catch (error) { h error }]. *)
Definition try_catch {A} (c : M A) (h : JsError -> M A) : M A := fun w =>
  match c w with
  | (Return a, w') => (Return a, w')
  | (Throw e, w') => h e w'
  end.

Declare Scope js_scope.
Delimit Scope js_scope with js.
Notation "x <- c ;; k" := (bind c (fun x => k))
  (at level 100, c at next level, right associativity) : js_scope.
Notation "c ;; k" := (bind c (fun _ => k))
  (at level 100, right associativity) : js_scope.
Local Open Scope js_scope.

Definition set_table (t : Table) (w : World) : World :=
  mkWorld t (clock w) (faults w) (history w) (submitted w) (logs w).

Definition set_faults (fs : list (option JsError)) (w : World) : World :=
  mkWorld (table w) (clock w) fs (history w) (submitted w) (logs w).

(** The environment lets time pass. *)
Definition set_clock (t : Z) (w : World) : World :=
  mkWorld (table w) t (faults w) (history w) (submitted w) (logs w).

(** [logger.info / warn / error] and the workflow's [log.*]: one line. *)
Definition log (l : Level) (msg : string) : M unit := fun w =>
  (Return tt,
   mkWorld (table w) (clock w) (faults w) (history w) (submitted w)
           (logs w ++ [(l, msg)])).

(** [Date.now()]. *)
Definition Date_now : M Z := fun w => (Return (clock w), w).

(** ** The Sequelize model [User]  ([src/db/models/user.model.ts])

    The model is defined with [paranoid: true] and [timestamps: true]
    ([createdAt: 'created_on'], [updatedAt: 'updated_on'], [deletedAt:
    'deleted_on']): every query sees only the rows whose [deleted_on] is
    null, [create] stamps both dates and [update] stamps [updated_on]. *)

(** A [where: { c1: v1, ... }] option: a conjunction of equalities. *)
Definition Where : Type := list (string * JsValue).

Definition visible (r : UserAttributes) : bool :=
  match deleted_on r with
  | None => true
  | Some _ => false
  end.

Definition matches (wh : Where) (r : UserAttributes) : bool :=
  forallb (fun cv => JsValue_eqb (column (fst cv) r) (snd cv)) wh.

Definition selected (wh : Where) (r : UserAttributes) : bool :=
  visible r && matches wh r.

(** [attributes: [...]] with [raw: true]: a plain object holding the
    listed columns and nothing else. *)
Definition project (attributes : list string) (r : UserAttributes) : JsObject :=
  map (fun c => (c, column c r)) attributes.

(** The failure, if any, the store has in stock for the coming query. *)
Definition next_fault (w : World) : option JsError := hd None (faults w).

(** The world once that query is over. *)
Definition consume (w : World) : World := set_faults (tl (faults w)) w.

(** One round trip to the store.  The environment decides whether it
    fails (connection loss, timeout, a constraint the store enforces);
    otherwise [run] reads and writes the table at the current time. *)
Definition query {A} (run : Z -> Table -> A * Table) : M A := fun w =>
  match next_fault w with
  | Some e => (Throw e, consume w)
  | None =>
      let (a, t) := run (clock w) (table w) in
      (Return a, set_table t (consume w))
  end.

(** [User.findOne({ attributes, where, raw: true })]. *)
Definition User_findOne (attributes : list string) (wh : Where)
  : M (option JsObject) :=
  query (fun _ t =>
    (option_map (project attributes) (find (selected wh) (rows t)), t)).

(** The errors with which the store itself turns a statement down, as
    opposed to the failures of reaching it. *)
Definition rejected_by_store (e : JsError) : bool :=
  existsb (String.eqb (err_name e))
    ["SequelizeUniqueConstraintError"; "SequelizeForeignKeyConstraintError";
     "SequelizeExclusionConstraintError"; "SequelizeDatabaseError"].
Arguments rejected_by_store : simpl never.

(** [User.create({ name, email, mobile })]: the new row takes the next
    value of the primary-key sequence and the column defaults of the
    migration.  An insert the store turns down has drawn its value from
    the sequence all the same, and that value is not given back. *)
Definition User_create (n e m : string) : M UserAttributes := fun w =>
  let t := table w in
  match next_fault w with
  | Some err =>
      (Throw err,
       set_table
         (mkTable (rows t)
                  (if rejected_by_store err then next_id t + 1 else next_id t))
         (consume w))
  | None =>
      let r :=
        mkUser (next_id t) n e m false None None None (clock w) (clock w)
               None in
      (Return r, set_table (mkTable (rows t ++ [r]) (next_id t + 1)) (consume w))
  end.

(** The columns [values] gives replace the row's. *)
Definition assign (v : UserUpdateAttributes) (r : UserAttributes)
  : UserAttributes :=
  mkUser (match up_id v with Some x => x | None => id r end)
         (match up_name v with Some x => x | None => name r end)
         (match up_email v with Some x => x | None => email r end)
         (match up_mobile v with Some x => x | None => mobile r end)
         (match up_suspend_status v with
          | Some x => x
          | None => suspend_status r
          end)
         (match up_updated_by v with Some x => x | None => updated_by r end)
         (match up_created_by v with Some x => x | None => created_by r end)
         (match up_deleted_by v with Some x => x | None => deleted_by r end)
         (match up_created_on v with Some x => x | None => created_on r end)
         (updated_on r)
         (match up_deleted_on v with Some x => x | None => deleted_on r end).

(** An update that names no column. *)
Definition no_values (v : UserUpdateAttributes) : bool :=
  match up_name v, up_email v, up_mobile v, up_suspend_status v,
        up_updated_by v, up_created_by v, up_deleted_by v,
        up_id v, up_created_on v, up_deleted_on v with
  | None, None, None, None, None, None, None, None, None, None => true
  | _, _, _, _, _, _, _, _, _, _ => false
  end.

Definition touch (now : Z) (r : UserAttributes) : UserAttributes :=
  mkUser (id r) (name r) (email r) (mobile r) (suspend_status r)
         (updated_by r) (created_by r) (deleted_by r)
         (created_on r) now (deleted_on r).

(** The rows after an [UPDATE]: the store writes a new version of each
    row it updates, and a scan finds the new versions after the rows that
    were left alone. *)
Definition rewritten (f : UserAttributes -> UserAttributes)
  (hit : UserAttributes -> bool) (l : list UserAttributes)
  : list UserAttributes :=
  filter (fun r => negb (hit r)) l ++ map f (filter hit l).

(** [User.update(values, { where })]: resolves to the number of rows
    affected.  With no column to set, no statement is sent to the store
    and the answer is 0. *)
Definition User_update (values : UserUpdateAttributes) (wh : Where) : M nat :=
  if no_values values then ret 0%nat
  else
    query (fun now t =>
      (List.length (filter (selected wh) (rows t)),
       mkTable
         (rewritten (fun r => touch now (assign values r)) (selected wh)
                    (rows t))
         (next_id t))).

(** [User.findAll({ limit, offset })]: no [order] option is passed, so
    the page is cut from the rows in the store's scan order. *)
Definition User_findAll (limit offset : nat) : M (list UserAttributes) :=
  query (fun _ t => (firstn limit (skipn offset (filter visible (rows t))), t)).

(** ** Activity Layer  ([src/temporal/activities/user/activities.ts]) *)

Record UpdateUserResult : Type := mkUpdateUserResult {
  ur_id : Z;
  ur_success : bool
}.

(** [GetAllUsersParams]: both properties optional. *)
Record GetAllUsersParams : Type := mkParams {
  limit : option nat;
  offset : option nat
}.

(** A destructuring default, [{ x = d }]. *)
Definition default {A} (d : A) (o : option A) : A :=
  match o with
  | Some x => x
  | None => d
  end.

Definition checkDuplicateByMobileActivity (mobile : string)
  : M (option JsObject) :=
  log Info "Checking for duplicate user by mobile" ;;
  user <- User_findOne ["id"; "mobile"] [("mobile", JStr mobile)] ;;
  match user with
  | Some _ => log Warn "Duplicate mobile number found"
  | None => log Info "No duplicate found"
  end ;;
  ret user.

Definition createUserActivity (userData : UserData) : M JsObject :=
  log Info "Creating new user" ;;
  try_catch
    (user <- User_create (ud_name userData) (ud_email userData)
                         (ud_mobile userData) ;;
     log Info "User created successfully" ;;
     ret [("id", JNum (id user)); ("name", JStr (name user));
          ("email", JStr (email user)); ("mobile", JStr (mobile user))])
    (fun error =>
       log LError "Failed to create user" ;;
       throw error).

Definition updateUserActivity (id : Z) (userData : UserUpdateAttributes)
  : M UpdateUserResult :=
  log Info "Updating user" ;;
  try_catch
    (User_update userData [("id", JNum id)] ;;
     log Info "User updated successfully" ;;
     ret (mkUpdateUserResult id true))
    (fun error =>
       log LError "Failed to update user" ;;
       throw error).

Definition getUserActivity (id : Z) : M (option JsObject) :=
  log Info "Fetching user" ;;
  user <- User_findOne ["id"; "mobile"; "name"; "email"] [("id", JNum id)] ;;
  match user with
  | Some _ => log Info "User found"
  | None => log Warn "User not found"
  end ;;
  ret user.

Definition getAllUsersActivity (params : GetAllUsersParams)
  : M (list UserAttributes) :=
  let limit := default 100%nat (limit params) in
  let offset := default 0%nat (offset params) in
  log Info "Fetching all users" ;;
  users <- User_findAll limit offset ;;
  log Info "Users fetched successfully" ;;
  ret users.

(** ** Workflow Layer  ([src/temporal/workflows/user/]) *)

(** [proxyActivities]: the engine records the call, runs the activity
    and hands its result to the awaiting workflow.  The model follows one
    attempt of the activity.  The proxies are configured with a timeout
    only, so after an attempt that fails the engine schedules the activity
    again; that is the engine's business and is not modelled, and the
    statements below on what a workflow returns are about runs in which
    the store answers. *)
Definition proxy {A} (call : ActivityCall) (activity : M A) : M A := fun w =>
  activity (mkWorld (table w) (clock w) (faults w) (history w ++ [call])
                    (submitted w) (logs w)).

(** [WorkflowResult] of [createUser.workflow.ts]; an absent [user] is
    [None]. *)
Record CreateUserResult : Type := mkCreateUserResult {
  cr_code : Z;
  cr_message : string;
  cr_id : JsValue;
  cr_user : option JsObject
}.

(** [WorkflowResult] of [updateUser.workflow.ts]. *)
Record UpdateUserWorkflowResult : Type := mkUpdateUserWorkflowResult {
  uw_code : Z;
  uw_success : bool;
  uw_id : Z
}.

(** [WorkflowResult] of [getUser.workflow.ts]; [gr_user = None] is
    [user: null]. *)
Record GetUserResult : Type := mkGetUserResult {
  gr_code : Z;
  gr_message : option string;
  gr_user : option JsObject
}.

Record GetAllUsersResult : Type := mkGetAllUsersResult {
  lr_code : Z;
  lr_users : list UserAttributes
}.

Definition createUserWorkflow (userData : UserData) : M CreateUserResult :=
  let mobile := ud_mobile userData in
  log Info "Starting user creation workflow" ;;
  log Info "Checking for duplicate users" ;;
  duplicate <- proxy (CheckDuplicateByMobile mobile)
                     (checkDuplicateByMobileActivity mobile) ;;
  match duplicate with
  | Some duplicate =>
      log Warn "Duplicate user detected, aborting workflow" ;;
      ret (mkCreateUserResult 409
             "Duplicate mobile number found. Possible fraud."
             (get_prop "id" duplicate) None)
  | None =>
      log Info "No duplicate found, creating user" ;;
      result <- proxy (CreateUser userData) (createUserActivity userData) ;;
      log Info "User creation workflow completed successfully" ;;
      ret (mkCreateUserResult 201 "Your account created successfully."
             (get_prop "id" result) (Some result))
  end.

Definition updateUserWorkflow (id : Z) (userData : UserUpdateAttributes)
  : M UpdateUserWorkflowResult :=
  result <- proxy (UpdateUser id userData) (updateUserActivity id userData) ;;
  ret (mkUpdateUserWorkflowResult 200 (ur_success result) (ur_id result)).

Definition getUserWorkflow (id : Z) : M GetUserResult :=
  user <- proxy (GetUser id) (getUserActivity id) ;;
  match user with
  | None => ret (mkGetUserResult 404 (Some "User not found") None)
  | Some user => ret (mkGetUserResult 200 None (Some user))
  end.

Definition getAllUsersWorkflow (params : GetAllUsersParams)
  : M GetAllUsersResult :=
  let limit := default 100%nat (limit params) in
  let offset := default 0%nat (offset params) in
  users <- proxy (GetAllUsers limit offset)
                 (getAllUsersActivity (mkParams (Some limit) (Some offset))) ;;
  ret (mkGetAllUsersResult 200 users).

(** ** Dispatch Layer  ([src/temporal/clients/user.client.js]) *)

Section Dispatch.

(** [USER_QUEUE] of [config/environment/shared.js]. *)
Variable USER_QUEUE : string.

(** How the engine presents a failed workflow execution to the caller
    of [handle.result()]: the rejection it builds from the failure that
    ended the workflow. *)
Variable failure_of : JsError -> JsError.

(** [client.workflow.start(type, { args, taskQueue, workflowId })]
    followed by [handle.result()], for a client that [getClient()] has
    connected and an engine that takes the submission; the rejections of
    those two calls are not modelled. *)
Definition start_and_wait {A} (type workflowId : string) (workflow : M A)
  : M A := fun w =>
  try_catch workflow (fun e => throw (failure_of e))
    (mkWorld (table w) (clock w) (faults w) (history w)
             (submitted w ++ [mkSubmission type USER_QUEUE workflowId])
             (logs w)).

Definition startCreateUser (userData : UserData) : M CreateUserResult :=
  now <- Date_now ;;
  let workflowId :=
    "create-user-" ++ ud_mobile userData ++ "-" ++ string_of_Z now in
  start_and_wait "createUserWorkflow" workflowId
                 (createUserWorkflow userData).

Definition startUpdateUser (id : Z) (userData : UserUpdateAttributes)
  : M UpdateUserWorkflowResult :=
  now <- Date_now ;;
  let workflowId :=
    "update-user-" ++ string_of_Z id ++ "-" ++ string_of_Z now in
  start_and_wait "updateUserWorkflow" workflowId
                 (updateUserWorkflow id userData).

Definition startGetUser (id : Z) : M GetUserResult :=
  now <- Date_now ;;
  let workflowId :=
    "get-user-" ++ string_of_Z id ++ "-" ++ string_of_Z now in
  start_and_wait "getUserWorkflow" workflowId (getUserWorkflow id).

Definition startGetAllUsers (params : GetAllUsersParams)
  : M GetAllUsersResult :=
  let limit := default 100%nat (limit params) in
  let offset := default 0%nat (offset params) in
  now <- Date_now ;;
  let workflowId := "get-all-users-" ++ string_of_Z now in
  start_and_wait "getAllUsersWorkflow" workflowId
                 (getAllUsersWorkflow (mkParams (Some limit) (Some offset))).

(** ** The HTTP caller of the create operation
    ([create] of the user controller) *)

Inductive Field : Type :=
| Prim (v : JsValue)
| Obj (o : JsObject).

(** What the handler does with [res] and [next]. *)
Inductive Response : Type :=
| Respond (status : Z) (body : list (string * Field))
| Next (err : JsError).

(** [messagesMap]. *)
Definition messagesMap (code : Z) : JsValue :=
  if code =? 201 then JStr "Your account created successfully."
  else if code =? 409 then JStr "Duplicate"
  else if code =? 400 then JStr "Bad Request"
  else JUndefined.

Definition create (body : UserData) : M Response :=
  try_catch
    (result <- startCreateUser body ;;
     if cr_code result =? 409 then
       ret (Respond 409 [("message", Prim (JStr (cr_message result)));
                         ("id", Prim (cr_id result))])
     else if cr_code result =? 400 then
       ret (Respond 400 [("message", Prim (JStr (cr_message result)))])
     else
       ret (Respond 201 [("message", Prim (JStr (cr_message result)));
                         ("id", Prim (cr_id result));
                         ("user", match cr_user result with
                                  | Some u => Obj u
                                  | None => Prim JUndefined
                                  end)]))
    (fun err =>
       if String.eqb (err_name err) "SequelizeUniqueConstraintError" then
         ret (Respond 409 [("message", Prim (messagesMap 409));
                           ("error", Prim (JStr (err_message err)))])
       else ret (Next err)).

End Dispatch.

(** ** The HTTP handlers of the read operations
    ([index] and [getUser] of the user controller) *)

(** What a handler passes to [res.json]. *)
Inductive Body : Type :=
| ObjectBody (o : list (string * Field))
| RecordBody (user : option JsObject)
| ArrayBody (users : list UserAttributes).

(** What a handler does with [res] and [next]. *)
Inductive Reply : Type :=
| Send (status : Z) (body : Body)
| Forward (err : JsError).

Section Handlers.

Variable USER_QUEUE : string.
Variable failure_of : JsError -> JsError.

Definition index : M Reply :=
  try_catch
    (let limit := 100%nat in
     let offset := 0%nat in
     result <- startGetAllUsers USER_QUEUE failure_of
                 (mkParams (Some limit) (Some offset)) ;;
     ret (Send (lr_code result) (ArrayBody (lr_users result))))
    (fun err => ret (Forward err)).

Definition getUser (id : Z) : M Reply :=
  try_catch
    (result <- startGetUser USER_QUEUE failure_of id ;;
     if gr_code result =? 404 then
       ret (Send 404
              (ObjectBody
                 [("message", Prim (match gr_message result with
                                    | Some m => JStr m
                                    | None => JUndefined
                                    end))]))
     else ret (Send (gr_code result) (RecordBody (gr_user result))))
    (fun err => ret (Forward err)).

End Handlers.

(** ** The model's own finder  ([User.getUser] of
    [src/db/models/user.model.ts]) *)

(** [order: [['id', 'asc']]]: a stable sort on the id. *)
Fixpoint insert_by_id (r : UserAttributes) (l : list UserAttributes)
  : list UserAttributes :=
  match l with
  | [] => [r]
  | u :: l' => if id r <=? id u then r :: l else u :: insert_by_id r l'
  end.

Definition order_by_id_asc (l : list UserAttributes) : list UserAttributes :=
  fold_right insert_by_id [] l.

(** [db.User.findOne({ attributes: ['name', 'email'], where: { id },
    order: [['id', 'asc']], limit: 1 })]. *)
Definition User_getUser (i : Z) : M (option JsObject) :=
  query (fun _ t =>
    (option_map (project ["name"; "email"])
       (hd_error
          (firstn 1
             (order_by_id_asc (filter (selected [("id", JNum i)]) (rows t))))),
     t)).

(** ** The repository  ([src/db/repositories/user.repository.js]) *)

(** Every column of the model, as a raw query returns them. *)
Definition all_columns : list string :=
  ["id"; "name"; "email"; "mobile"; "suspend_status"; "updated_by";
   "created_by"; "deleted_by"; "created_on"; "updated_on"; "deleted_on"].

(** [User.update(values, { where, returning: true })]: the array
    [[n, rows]] of the number of rows affected and the rows as they are
    after the update; with no column to set, no statement is sent and the
    answer is the one-element array [[0]]. *)
Definition User_update_returning (values : UserUpdateAttributes) (wh : Where)
  : M (nat * option (list UserAttributes)) :=
  if no_values values then ret (0%nat, None)
  else
    query (fun now t =>
      let affected :=
        map (fun r => touch now (assign values r))
            (filter (selected wh) (rows t)) in
      ((List.length affected, Some affected),
       mkTable
         (rewritten (fun r => touch now (assign values r)) (selected wh)
                    (rows t))
         (next_id t))).

Definition mark_deleted (now : Z) (r : UserAttributes) : UserAttributes :=
  mkUser (id r) (name r) (email r) (mobile r) (suspend_status r)
         (updated_by r) (created_by r) (deleted_by r)
         (created_on r) (updated_on r) (Some now).

(** [User.destroy({ where })] on a paranoid model: the rows the query
    sees get their [deleted_on] stamped and stay in the table; resolves to
    their number. *)
Definition User_destroy (wh : Where) : M nat :=
  query (fun now t =>
    (List.length (filter (selected wh) (rows t)),
     mkTable
       (map (fun r => if selected wh r then mark_deleted now r else r)
            (rows t))
       (next_id t))).

Module UserRepository.

Definition findByEmail (email : string) : M (option JsObject) :=
  User_findOne all_columns [("email", JStr email)].


Definition findAll (limit offset : option nat) : M (list JsObject) :=
  let limit := default 10%nat limit in
  let offset := default 0%nat offset in
  query (fun _ t =>
    (map (project all_columns)
         (firstn limit (skipn offset (filter visible (rows t)))), t)).

Definition update (id : Z) (userData : UserUpdateAttributes)
  : M (nat * option (list UserAttributes)) :=
  User_update_returning userData [("id", JNum id)].

Definition deleteById (id : Z) : M nat :=
  User_destroy [("id", JNum id)].

End UserRepository.

(** ** Logging adapter  ([src/utils/temporal-logger.ts]) *)

(** Property write [o[k] = v]: an existing property keeps its place. *)
Fixpoint set_prop (k : string) (v : JsValue) (o : JsObject) : JsObject :=
  match o with
  | [] => [(k, v)]
  | (k', v') :: o' =>
      if String.eqb k k' then (k', v) :: o' else (k', v') :: set_prop k v o'
  end.

(** Object spread, [{ ...a, ...b }]. *)
Definition spread (a b : JsObject) : JsObject :=
  fold_left (fun o kv => set_prop (fst kv) (snd kv) o) b a.

(** The levels of the winston logger the adapter reaches. *)
Inductive WinstonLevel : Type := WDebug | WInfo | WWarn | WError.

(** One call [logger.<level>(message, meta)]. *)
Record LogCall : Type := mkLogCall {
  lc_level : WinstonLevel;
  lc_message : string;
  lc_meta : JsObject
}.

Module WinstonTemporalLogger.

Record t : Type := new {
  defaultMeta : JsObject
}.

Definition trace (this : t) (message : string) (attrs : JsObject) : LogCall :=
  mkLogCall WDebug message
    (set_prop "temporalLevel" (JStr "TRACE")
       (spread (defaultMeta this) attrs)).

Definition debug (this : t) (message : string) (attrs : JsObject) : LogCall :=
  mkLogCall WDebug message (spread (defaultMeta this) attrs).

Definition info (this : t) (message : string) (attrs : JsObject) : LogCall :=
  mkLogCall WInfo message (spread (defaultMeta this) attrs).

Definition warn (this : t) (message : string) (attrs : JsObject) : LogCall :=
  mkLogCall WWarn message (spread (defaultMeta this) attrs).

Definition error (this : t) (message : string) (attrs : JsObject) : LogCall :=
  mkLogCall WError message (spread (defaultMeta this) attrs).

Definition child (this : t) (childMeta : JsObject) : t :=
  new (spread (defaultMeta this) childMeta).

End WinstonTemporalLogger.

Definition createTemporalLogger (meta : JsObject) : WinstonTemporalLogger.t :=
  WinstonTemporalLogger.new meta.

(** ** Vocabulary of the statements *)

(** The row [User.create] inserts for [userData] in table [t] at time
    [now]. *)
Definition created_row (userData : UserData) (t : Table) (now : Z)
  : UserAttributes :=
  mkUser (next_id t) (ud_name userData) (ud_email userData)
         (ud_mobile userData) false None None None now now None.

(** The first row a query for [mobile] sees. *)
Definition duplicate_of (mobile : string) (t : Table) : option UserAttributes :=
  find (selected [("mobile", JStr mobile)]) (rows t).

(** The first row a query for [id] sees. *)
Definition record_of (i : Z) (t : Table) : option UserAttributes :=
  find (selected [("id", JNum i)]) (rows t).

(** A row with its [updated_on] stamp blanked: every other column. *)
Definition forget_updated_on (r : UserAttributes) : UserAttributes :=
  touch 0 r.

(** The ids of a page never go down. *)
Fixpoint id_ascending (l : list UserAttributes) : bool :=
  match l with
  | [] => true
  | a :: l' =>
      match l' with
      | [] => true
      | b :: _ => (id a <=? id b) && id_ascending l'
      end
  end.

(** The workflow-id format of the specification,
    ["{operation}-{naturalKeyOrId}-{submissionTimestamp}"]. *)
Definition spec_workflowId (operation key : string) (timestamp : Z) : string :=
  operation ++ "-" ++ key ++ "-" ++ string_of_Z timestamp.

(** The primary-key invariant of the table: the auto-increment sequence
    is ahead of every id in use, soft-deleted rows included. *)
Definition sequence_ahead (t : Table) : Prop :=
  Forall (fun u => id u < next_id t) (rows t).

(** Whether the rows an update for id [i] writes are still found by a
    query for [i] afterwards: the update neither moves them to another id
    nor soft-deletes them. *)
Definition stays (i : Z) (v : UserUpdateAttributes) : bool :=
  match up_deleted_on v with
  | Some (Some _) => false
  | _ => true
  end
  && match up_id v with
     | Some j => j =? i
     | None => true
     end.

(** ** Sample worlds *)

Definition john : UserData :=
  mkUserData "John Doe" "john@x.com" "1234567890".

Definition alice : UserAttributes :=
  mkUser 1 "Alice" "alice@x.com" "1111111111" false None None None 5 5 None.

Definition bob : UserAttributes :=
  mkUser 2 "Bob" "bob@x.com" "2222222222" false None None None 6 6 None.

(** John, already registered under id 3. *)
Definition john_row : UserAttributes :=
  mkUser 3 "John Doe" "john@x.com" "1234567890" false None None None 7 7 None.

Definition unique_violation : JsError :=
  mkError "SequelizeUniqueConstraintError" "Validation error".

(** An empty table, a healthy store, the clock at 1000. *)
Definition w_empty : World :=
  mkWorld (mkTable [] 1) 1000 [] [] [] [].

(** Alice and Bob, scanned in the order of their ids. *)
Definition w_two : World :=
  mkWorld (mkTable [alice; bob] 3) 1000 [] [] [] [].

(** The same two rows, scanned Bob first. *)
Definition w_bob_first : World :=
  mkWorld (mkTable [bob; alice] 3) 1000 [] [] [] [].

(** Alice, Bob and John. *)
Definition w_three : World :=
  mkWorld (mkTable [alice; bob; john_row] 4) 1000 [] [] [] [].

(** The race window: the duplicate check goes through, then the store
    rejects the insert with a uniqueness violation. *)
Definition w_race : World :=
  mkWorld (mkTable [alice; bob] 3) 1000 [None; Some unique_violation]
          [] [] [].

(** A partial update that changes the name only. *)
Definition rename : UserUpdateAttributes :=
  mkUpdate (Some "Alicia") None None None None None None None None None.

(** An update that moves the record to id 7. *)
Definition move_to_7 : UserUpdateAttributes :=
  mkUpdate None None None None None None None (Some 7) None None.

(** A request body with no column in it. *)
Definition nothing : UserUpdateAttributes :=
  mkUpdate None None None None None None None None None None.

(** ** Vocabulary and samples of the further properties *)

(** Own-property lookup: [None] when [o] has no property [k]. *)
Fixpoint own_prop (k : string) (o : JsObject) : option JsValue :=
  match o with
  | [] => None
  | (k', v) :: o' => if String.eqb k k' then Some v else own_prop k o'
  end.

(** The primary key of the table: the sequence is ahead of the ids in
    use and no two rows share an id. *)
Definition primary_key (t : Table) : Prop :=
  sequence_ahead t /\ NoDup (map id (rows t)).

(** The id of the latest workflow submitted. *)
Definition last_workflowId (w : World) : string :=
  last (map workflowId (submitted w)) "".

(** The world once the engine has taken a submission. *)
Definition submit (s : Submission) (w : World) : World :=
  mkWorld (table w) (clock w) (faults w) (history w) (submitted w ++ [s])
          (logs w).

(** The meta a worker logger is created with, and call attributes. *)
Definition worker_meta : JsObject :=
  [("component", JStr "temporal-worker"); ("taskQueue", JStr "user")].

Definition call_attrs : JsObject :=
  [("taskQueue", JStr "other"); ("temporalLevel", JStr "INFO")].

(** Carol left: her row is soft-deleted, and her number was John's. *)
Definition carol_gone : UserAttributes :=
  mkUser 3 "Carol" "carol@x.com" "1234567890" false None None None 7 7
         (Some 8).

Definition w_carol_gone : World :=
  mkWorld (mkTable [alice; bob; carol_gone] 4) 1000 [] [] [] [].

Definition connection_lost : JsError :=
  mkError "SequelizeConnectionError" "connect ECONNREFUSED".

(** The store is down for the coming query. *)
Definition w_down : World :=
  mkWorld (mkTable [alice; bob] 3) 1000 [Some connection_lost] [] [] [].

(** ** Running the monad *)

Ltac run :=
  unfold createUserWorkflow, updateUserWorkflow, getUserWorkflow,
    getAllUsersWorkflow, checkDuplicateByMobileActivity, createUserActivity,
    updateUserActivity, getUserActivity, getAllUsersActivity, proxy,
    User_findOne, User_create, User_update, User_findAll, query, try_catch,
    bind, ret, throw, log, Date_now, next_fault, consume, set_table,
    set_faults, set_clock, default, duplicate_of, record_of in *;
  cbn [fst snd table clock faults history submitted logs limit offset] in *.

(** ** createUserWorkflow *)

(** C2.  For every create input the CreateUser workflow first calls the
    duplicate check on the mobile key.  When the store answers and the
    check finds a duplicate, the workflow ends with code 409, the
    duplicate's id and the fraud message, and createRecord is never
    called; when it finds none the workflow calls createRecord and, the
    insert going through, ends with code 201, the created id and the
    created record. *)
Theorem createUserWorkflow_check_then_create (userData : UserData) (w : World) :
  (exists rest,
      history (snd (createUserWorkflow userData w))
      = (history w ++ CheckDuplicateByMobile (ud_mobile userData) :: rest)%list)
  /\ (next_fault w = None ->
      match duplicate_of (ud_mobile userData) (table w) with
      | Some d =>
          fst (createUserWorkflow userData w)
          = Return (mkCreateUserResult 409
                      "Duplicate mobile number found. Possible fraud."
                      (JNum (id d)) None)
          /\ history (snd (createUserWorkflow userData w))
             = (history w
                ++ [CheckDuplicateByMobile (ud_mobile userData)])%list
          /\ table (snd (createUserWorkflow userData w)) = table w
      | None =>
          history (snd (createUserWorkflow userData w))
          = (history w ++ [CheckDuplicateByMobile (ud_mobile userData);
                           CreateUser userData])%list
          /\ (next_fault (consume w) = None ->
              let r := created_row userData (table w) (clock w) in
              fst (createUserWorkflow userData w)
              = Return (mkCreateUserResult 201
                          "Your account created successfully."
                          (JNum (id r))
                          (Some [("id", JNum (id r)); ("name", JStr (name r));
                                 ("email", JStr (email r));
                                 ("mobile", JStr (mobile r))]))
              /\ rows (table (snd (createUserWorkflow userData w)))
                 = (rows (table w) ++ [r])%list)
      end).
Proof.
  run. split.
  - destruct (hd None (faults w)); cbn; [now exists []|].
    destruct (find _ (rows (table w))); cbn; [now exists []|].
    exists [CreateUser userData]. rewrite <- app_assoc.
    destruct (hd None (tl (faults w))); reflexivity.
  - intros Hq. rewrite Hq.
    destruct (find _ (rows (table w))) as [d|] eqn:Hd; cbn.
    + repeat split.
    + rewrite <- app_assoc. split.
      * destruct (hd None (tl (faults w))); reflexivity.
      * intros Hq'. rewrite Hq'. repeat split.
Qed.

Lemma createUserWorkflow_check_then_create_witness :
  fst (createUserWorkflow john w_three)
  = Return (mkCreateUserResult 409
              "Duplicate mobile number found. Possible fraud." (JNum 3) None)
  /\ history (snd (createUserWorkflow john w_three))
     = [CheckDuplicateByMobile "1234567890"]
  /\ fst (createUserWorkflow john w_two)
     = Return (mkCreateUserResult 201 "Your account created successfully."
                 (JNum 3)
                 (Some [("id", JNum 3); ("name", JStr "John Doe");
                        ("email", JStr "john@x.com");
                        ("mobile", JStr "1234567890")])).
Proof.
  split; [|split].
  - exact (proj1 (proj2 (createUserWorkflow_check_then_create john w_three)
                    eq_refl)).
  - exact (proj1 (proj2 (proj2 (createUserWorkflow_check_then_create
                                  john w_three) eq_refl))).
  - exact (proj1 (proj2 (proj2 (createUserWorkflow_check_then_create
                                  john w_two) eq_refl) eq_refl)).
Defined.

(** C1.  What the code does in the race window.  Once the duplicate
    check has found no record, nothing createRecord does makes the
    workflow return the 409 outcome: after the check createRecord is
    called, and whether the insert goes through or the store turns it down
    (with a uniqueness violation or any other error) the workflow has no
    result of code 409; the only 409 it ever returns is the one of the
    check. *)
Theorem createUserWorkflow_no_409_past_the_check
  (userData : UserData) (w : World) :
  next_fault w = None ->
  duplicate_of (ud_mobile userData) (table w) = None ->
  (exists rest,
     history (snd (createUserWorkflow userData w))
     = (history w ++ CheckDuplicateByMobile (ud_mobile userData)
                     :: CreateUser userData :: rest)%list)
  /\ ~ (exists r,
          fst (createUserWorkflow userData w) = Return r /\ cr_code r = 409).
Proof.
  intros Hq Hd. run. rewrite Hq. cbn. rewrite Hd. cbn.
  rewrite <- app_assoc. cbn.
  destruct (hd None (tl (faults w))); cbn.
  - split; [now exists []|]. intros [r [H _]]. discriminate H.
  - split; [now exists []|]. intros [r [H Hc]]. injection H as <-.
    discriminate Hc.
Qed.

Lemma createUserWorkflow_no_409_past_the_check_witness :
  err_name unique_violation = "SequelizeUniqueConstraintError"
  /\ next_fault (consume w_race) = Some unique_violation
  /\ (exists rest,
        history (snd (createUserWorkflow john w_race))
        = CheckDuplicateByMobile "1234567890" :: CreateUser john :: rest)
  /\ ~ (exists r,
          fst (createUserWorkflow john w_race) = Return r /\ cr_code r = 409).
Proof.
  split; [reflexivity|]. split; [reflexivity|].
  exact (createUserWorkflow_no_409_past_the_check john w_race
           eq_refl eq_refl).
Defined.

(** ** Queries by key *)

Lemma selected_mobile (key : string) (r : UserAttributes) :
  selected [("mobile", JStr key)] r = visible r && String.eqb (mobile r) key.
Proof.
  unfold selected, matches. cbn. now rewrite andb_true_r.
Qed.

Lemma selected_id (i : Z) (r : UserAttributes) :
  selected [("id", JNum i)] r = visible r && (id r =? i).
Proof.
  unfold selected, matches. cbn. now rewrite andb_true_r.
Qed.

Lemma duplicate_of_Some (key : string) (t : Table) (r : UserAttributes) :
  duplicate_of key t = Some r ->
  In r (rows t) /\ visible r = true /\ mobile r = key.
Proof.
  unfold duplicate_of. intros H. apply find_some in H as [Hin Hsel].
  rewrite selected_mobile in Hsel. apply andb_true_iff in Hsel as [Hv Hm].
  apply String.eqb_eq in Hm. auto.
Qed.

Lemma duplicate_of_None (key : string) (t : Table) :
  duplicate_of key t = None ->
  forall r, In r (rows t) -> visible r = true -> mobile r <> key.
Proof.
  unfold duplicate_of. intros H r Hin Hv Hm.
  pose proof (find_none _ _ H r Hin) as Hsel.
  rewrite selected_mobile, Hv in Hsel. cbn in Hsel.
  apply String.eqb_neq in Hsel. contradiction.
Qed.

Lemma record_of_Some (i : Z) (t : Table) (r : UserAttributes) :
  record_of i t = Some r -> In r (rows t) /\ visible r = true /\ id r = i.
Proof.
  unfold record_of. intros H. apply find_some in H as [Hin Hsel].
  rewrite selected_id in Hsel. apply andb_true_iff in Hsel as [Hv Hi].
  apply Z.eqb_eq in Hi. auto.
Qed.

Lemma record_of_None (i : Z) (t : Table) :
  record_of i t = None ->
  forall r, In r (rows t) -> visible r = true -> id r <> i.
Proof.
  unfold record_of. intros H r Hin Hv Hi.
  pose proof (find_none _ _ H r Hin) as Hsel.
  rewrite selected_id, Hv in Hsel. cbn in Hsel.
  apply Z.eqb_neq in Hsel. contradiction.
Qed.

(** C3.  For every key, when the store answers the query,
    checkDuplicateByMobileActivity returns either an existing record with
    that mobile, as an object holding its id and the mobile and nothing
    else, or null when no record has the key; absence is a returned null,
    not a raised error. *)
Theorem checkDuplicateByMobileActivity_found_or_null
  (key : string) (w : World) :
  next_fault w = None ->
  (exists r,
      In r (rows (table w)) /\ visible r = true /\ mobile r = key
      /\ fst (checkDuplicateByMobileActivity key w)
         = Return (Some [("id", JNum (id r)); ("mobile", JStr key)]))
  \/ ((forall r, In r (rows (table w)) -> visible r = true -> mobile r <> key)
      /\ fst (checkDuplicateByMobileActivity key w) = Return None).
Proof.
  intros Hq.
  destruct (duplicate_of key (table w)) as [r|] eqn:Hd.
  - left. exists r. destruct (duplicate_of_Some _ _ _ Hd) as (Hin & Hv & Hm).
    repeat split; trivial.
    run. rewrite Hq, Hd. cbn. now rewrite Hm.
  - right. split.
    + now apply duplicate_of_None.
    + run. now rewrite Hq, Hd.
Qed.

Lemma checkDuplicateByMobileActivity_found_or_null_witness :
  ((exists r,
       In r (rows (table w_two)) /\ visible r = true
       /\ mobile r = "2222222222"
       /\ fst (checkDuplicateByMobileActivity "2222222222" w_two)
          = Return (Some [("id", JNum (id r));
                          ("mobile", JStr "2222222222")]))
   \/ ((forall r, In r (rows (table w_two)) -> visible r = true ->
                  mobile r <> "2222222222")
       /\ fst (checkDuplicateByMobileActivity "2222222222" w_two)
          = Return None))
  /\ fst (checkDuplicateByMobileActivity "2222222222" w_two)
     = Return (Some [("id", JNum 2); ("mobile", JStr "2222222222")])
  /\ fst (checkDuplicateByMobileActivity "1234567890" w_two) = Return None.
Proof.
  split.
  - exact (checkDuplicateByMobileActivity_found_or_null
             "2222222222" w_two eq_refl).
  - split; reflexivity.
Defined.

(** ** getUserWorkflow *)

(** C4.  For every id, when the store answers the query, the GetUser
    workflow ends with code 200 and the record (id, mobile, name, email)
    when a record with that id exists, and with code 404 and the message
    "User not found" when none does; in both cases the outcome is a
    returned value, not a failure. *)
Theorem getUserWorkflow_found_or_404 (i : Z) (w : World) :
  next_fault w = None ->
  (exists r,
      In r (rows (table w)) /\ visible r = true /\ id r = i
      /\ fst (getUserWorkflow i w)
         = Return (mkGetUserResult 200 None
                     (Some [("id", JNum i); ("mobile", JStr (mobile r));
                            ("name", JStr (name r));
                            ("email", JStr (email r))])))
  \/ ((forall r, In r (rows (table w)) -> visible r = true -> id r <> i)
      /\ fst (getUserWorkflow i w)
         = Return (mkGetUserResult 404 (Some "User not found") None)).
Proof.
  intros Hq.
  destruct (record_of i (table w)) as [r|] eqn:Hr.
  - left. exists r. destruct (record_of_Some _ _ _ Hr) as (Hin & Hv & Hi).
    repeat split; trivial.
    run. rewrite Hq, Hr. cbn. now rewrite Hi.
  - right. split.
    + now apply record_of_None.
    + run. now rewrite Hq, Hr.
Qed.

Lemma getUserWorkflow_found_or_404_witness :
  ((exists r,
       In r (rows (table w_two)) /\ visible r = true /\ id r = 2
       /\ fst (getUserWorkflow 2 w_two)
          = Return (mkGetUserResult 200 None
                      (Some [("id", JNum 2); ("mobile", JStr (mobile r));
                             ("name", JStr (name r));
                             ("email", JStr (email r))])))
   \/ ((forall r, In r (rows (table w_two)) -> visible r = true -> id r <> 2)
       /\ fst (getUserWorkflow 2 w_two)
          = Return (mkGetUserResult 404 (Some "User not found") None)))
  /\ fst (getUserWorkflow 999 w_two)
     = Return (mkGetUserResult 404 (Some "User not found") None).
Proof.
  split.
  - exact (getUserWorkflow_found_or_404 2 w_two eq_refl).
  - reflexivity.
Defined.

(** ** updateUserWorkflow *)

Lemma filter_all_true {A} (p : A -> bool) (l : list A) :
  (forall x, In x l -> p x = true) -> filter p l = l.
Proof.
  induction l as [|a l IH]; cbn; [reflexivity|].
  intros H. rewrite (H a (or_introl eq_refl)). f_equal. apply IH. auto.
Qed.

Lemma filter_none {A} (p : A -> bool) (l : list A) :
  (forall x, In x l -> p x = false) -> filter p l = [].
Proof.
  induction l as [|a l IH]; cbn; [reflexivity|].
  intros H. rewrite (H a (or_introl eq_refl)). apply IH. auto.
Qed.

Lemma find_all_false {A} (p : A -> bool) (l : list A) :
  (forall x, In x l -> p x = false) -> find p l = None.
Proof.
  induction l as [|a l IH]; cbn; [reflexivity|].
  intros H. rewrite (H a (or_introl eq_refl)). apply IH. auto.
Qed.

(** What an update does to whether a query for [i] finds the row. *)
Lemma selected_id_updated (i now : Z) (v : UserUpdateAttributes)
  (u : UserAttributes) :
  selected [("id", JNum i)] u = true ->
  selected [("id", JNum i)] (touch now (assign v u)) = stays i v.
Proof.
  rewrite !selected_id. intros H. apply andb_true_iff in H as [Hv Hi].
  apply Z.eqb_eq in Hi. unfold stays, visible, touch, assign in *. cbn.
  destruct (deleted_on u); [discriminate|].
  destruct (up_deleted_on v) as [[d|]|], (up_id v) as [j|]; cbn;
    rewrite ?Hi, ?Z.eqb_refl; reflexivity.
Qed.

Ltac by_column v :=
  destruct (up_name v), (up_email v), (up_mobile v), (up_suspend_status v),
    (up_updated_by v), (up_created_by v), (up_deleted_by v), (up_id v),
    (up_created_on v), (up_deleted_on v); reflexivity.

Lemma forget_touch_assign (now later : Z) (v : UserUpdateAttributes)
  (r : UserAttributes) :
  forget_updated_on (touch later (assign v (touch now (assign v r))))
  = forget_updated_on (touch now (assign v r)).
Proof.
  unfold forget_updated_on, touch, assign. cbn. by_column v.
Qed.

Lemma touch_assign_again (now : Z) (v : UserUpdateAttributes)
  (r : UserAttributes) :
  touch now (assign v (touch now (assign v r))) = touch now (assign v r).
Proof.
  unfold touch, assign. cbn. by_column v.
Qed.

Section UpdatePass.

Variable i : Z.
Variable v : UserUpdateAttributes.

Let sel := selected [("id", JNum i)].
Let pass (now : Z) := rewritten (fun r => touch now (assign v r)) sel.

Lemma left_alone_not_selected (l : list UserAttributes) (x : UserAttributes) :
  In x (filter (fun r => negb (sel r)) l) -> sel x = false.
Proof.
  intros H. apply filter_In in H as [_ H]. now apply negb_true_iff in H.
Qed.

Lemma written_selected (now : Z) (l : list UserAttributes)
  (x : UserAttributes) :
  In x (map (fun r => touch now (assign v r)) (filter sel l)) ->
  sel x = stays i v.
Proof.
  intros H. apply in_map_iff in H as (u & <- & Hu).
  apply filter_In in Hu as [_ Hu]. now apply selected_id_updated.
Qed.

(** A second pass over the rows of a first. *)
Lemma pass_pass (now later : Z) (l : list UserAttributes) :
  pass later (pass now l)
  = (filter (fun r => negb (sel r)) l
     ++ (if stays i v
         then map (fun r => touch later (assign v r))
                  (map (fun r => touch now (assign v r)) (filter sel l))
         else map (fun r => touch now (assign v r)) (filter sel l)))%list.
Proof.
  unfold pass, rewritten. rewrite !filter_app.
  rewrite (filter_all_true (fun r => negb (sel r))
             (filter (fun r => negb (sel r)) l)).
  2:{ intros x Hx. now rewrite (left_alone_not_selected l x Hx). }
  rewrite (filter_none sel (filter (fun r => negb (sel r)) l)).
  2:{ intros x Hx. exact (left_alone_not_selected l x Hx). }
  destruct (stays i v) eqn:Hs.
  - rewrite (filter_none (fun r => negb (sel r)) (map _ (filter sel l))).
    2:{ intros x Hx. now rewrite (written_selected now l x Hx), Hs. }
    rewrite (filter_all_true sel (map _ (filter sel l))).
    2:{ intros x Hx. now rewrite (written_selected now l x Hx). }
    now rewrite app_nil_r.
  - rewrite (filter_all_true (fun r => negb (sel r)) (map _ (filter sel l))).
    2:{ intros x Hx. now rewrite (written_selected now l x Hx), Hs. }
    rewrite (filter_none sel (map _ (filter sel l))).
    2:{ intros x Hx. now rewrite (written_selected now l x Hx). }
    cbn. now rewrite !app_nil_r.
Qed.

Lemma pass_twice (now later : Z) (l : list UserAttributes) :
  map forget_updated_on (pass later (pass now l))
  = map forget_updated_on (pass now l).
Proof.
  rewrite pass_pass. unfold pass, rewritten.
  destruct (stays i v); [|reflexivity].
  rewrite !map_app. f_equal. rewrite !map_map. apply map_ext.
  intros u. apply forget_touch_assign.
Qed.

Lemma pass_same_time (now : Z) (l : list UserAttributes) :
  pass now (pass now l) = pass now l.
Proof.
  rewrite pass_pass. unfold pass, rewritten.
  destruct (stays i v); [|reflexivity].
  f_equal. rewrite map_map. apply map_ext.
  intros u. apply touch_assign_again.
Qed.

Lemma pass_writes (now : Z) (l : list UserAttributes) (u : UserAttributes) :
  In u l -> sel u = true -> In (touch now (assign v u)) (pass now l).
Proof.
  intros Hin Hs. unfold pass, rewritten. apply in_or_app. right.
  apply (in_map (fun r => touch now (assign v r))). now apply filter_In.
Qed.

Lemma pass_absent (now : Z) (l : list UserAttributes) :
  (forall r, In r l -> visible r = true -> id r <> i) ->
  pass now l = l.
Proof.
  intros H.
  assert (Hs : forall r, In r l -> sel r = false).
  { intros r Hin. unfold sel. rewrite selected_id.
    destruct (visible r) eqn:Hv; cbn; [|reflexivity].
    apply Z.eqb_neq. now apply H. }
  unfold pass, rewritten.
  rewrite (filter_none sel l Hs), filter_all_true, app_nil_r; [reflexivity|].
  intros x Hx. now rewrite (Hs x Hx).
Qed.

End UpdatePass.

(** A run of the workflow for an update that sets a column, against a
    store that answers. *)
Lemma updateUserWorkflow_run
  (i : Z) (userData : UserUpdateAttributes) (w : World) :
  no_values userData = false ->
  next_fault w = None ->
  updateUserWorkflow i userData w
  = (Return (mkUpdateUserWorkflowResult 200 true i),
     mkWorld
       (mkTable
          (rewritten (fun r => touch (clock w) (assign userData r))
                     (selected [("id", JNum i)]) (rows (table w)))
          (next_id (table w)))
       (clock w) (tl (faults w))
       (history w ++ [UpdateUser i userData]) (submitted w)
       ((logs w ++ [(Info, "Updating user")])
          ++ [(Info, "User updated successfully")])).
Proof.
  intros He Hq. run. rewrite He. run. rewrite Hq. reflexivity.
Qed.

(** A run of the workflow for an update that sets no column: the store
    is not asked. *)
Lemma updateUserWorkflow_run_empty
  (i : Z) (userData : UserUpdateAttributes) (w : World) :
  no_values userData = true ->
  updateUserWorkflow i userData w
  = (Return (mkUpdateUserWorkflowResult 200 true i),
     mkWorld (table w) (clock w) (faults w)
       (history w ++ [UpdateUser i userData]) (submitted w)
       ((logs w ++ [(Info, "Updating user")])
          ++ [(Info, "User updated successfully")])).
Proof.
  intros He. run. rewrite He. reflexivity.
Qed.

(** C5, as the code has it.  Applying the same partial update twice, the
    second time at any later clock reading, leaves the same records as one
    application in every column except the server-assigned [updated_on]
    stamp, and the workflow returns code 200, the id and success on both
    invocations.  For the stamp: an update that sets at least one column
    writes every record it matches with its columns and with [updated_on]
    equal to the time of that application, the first as the second; an
    update that sets no column sends nothing to the store and leaves the
    table as it was; and when both applications read the same clock the
    records after the second are those after the first. *)
Theorem updateUserWorkflow_twice
  (i : Z) (userData : UserUpdateAttributes) (w : World) (later : Z) :
  next_fault w = None ->
  next_fault (consume w) = None ->
  let once := updateUserWorkflow i userData w in
  let twice := updateUserWorkflow i userData (set_clock later (snd once)) in
  fst once = Return (mkUpdateUserWorkflowResult 200 true i)
  /\ fst twice = Return (mkUpdateUserWorkflowResult 200 true i)
  /\ Permutation (map forget_updated_on (rows (table (snd twice))))
                 (map forget_updated_on (rows (table (snd once))))
  /\ next_id (table (snd twice)) = next_id (table (snd once))
  /\ (later = clock w ->
      Permutation (rows (table (snd twice))) (rows (table (snd once))))
  /\ (no_values userData = true ->
      table (snd once) = table w /\ table (snd twice) = table w)
  /\ (no_values userData = false ->
      (forall u, In u (rows (table w)) ->
                 selected [("id", JNum i)] u = true ->
                 In (touch (clock w) (assign userData u))
                    (rows (table (snd once))))
      /\ (forall u, In u (rows (table (snd once))) ->
                    selected [("id", JNum i)] u = true ->
                    In (touch later (assign userData u))
                       (rows (table (snd twice))))).
Proof.
  intros Hq Hq'. cbv zeta.
  destruct (no_values userData) eqn:He.
  - rewrite (updateUserWorkflow_run_empty i userData w He). cbn [fst snd].
    rewrite (updateUserWorkflow_run_empty i userData _ He).
    cbn [fst snd table set_clock]. destruct (table w) as [rs n].
    repeat split; try reflexivity; try discriminate.
  - rewrite (updateUserWorkflow_run i userData w He Hq). cbn [fst snd].
    rewrite updateUserWorkflow_run by (exact He || exact Hq').
    cbn [fst snd table rows next_id clock set_clock].
    split; [reflexivity|]. split; [reflexivity|]. split.
    { rewrite pass_twice. apply Permutation_refl. }
    split; [reflexivity|]. split.
    { intros ->. rewrite pass_same_time. apply Permutation_refl. }
    split; [discriminate|]. intros _. split.
    + intros u. apply pass_writes.
    + intros u. apply pass_writes.
Qed.

Lemma updateUserWorkflow_twice_witness :
  (let once := updateUserWorkflow 1 rename w_two in
   let twice := updateUserWorkflow 1 rename (set_clock 2000 (snd once)) in
   fst once = Return (mkUpdateUserWorkflowResult 200 true 1)
   /\ fst twice = Return (mkUpdateUserWorkflowResult 200 true 1)
   /\ Permutation (map forget_updated_on (rows (table (snd twice))))
                  (map forget_updated_on (rows (table (snd once))))
   /\ In (touch 1000 (assign rename alice)) (rows (table (snd once)))
   /\ In (touch 2000 (assign rename (touch 1000 (assign rename alice))))
         (rows (table (snd twice))))
  /\ (let once := updateUserWorkflow 1 rename w_two in
      let twice := updateUserWorkflow 1 rename (set_clock 1000 (snd once)) in
      Permutation (rows (table (snd twice))) (rows (table (snd once))))
  /\ (let once := updateUserWorkflow 1 nothing w_two in
      let twice := updateUserWorkflow 1 nothing (set_clock 2000 (snd once)) in
      table (snd once) = table w_two /\ table (snd twice) = table w_two).
Proof.
  pose proof (updateUserWorkflow_twice 1 rename w_two 2000 eq_refl eq_refl)
    as (H1 & H2 & H3 & _ & _ & _ & H7).
  destruct (H7 eq_refl) as [Hw1 Hw2].
  split; [|split].
  - cbv zeta. split; [exact H1|]. split; [exact H2|]. split; [exact H3|].
    split.
    + apply Hw1; [now left|reflexivity].
    + apply Hw2; [|reflexivity]. apply Hw1; [now left|reflexivity].
  - exact (proj1 (proj2 (proj2 (proj2 (proj2
             (updateUserWorkflow_twice 1 rename w_two 1000
                eq_refl eq_refl))))) eq_refl).
  - exact (proj1 (proj2 (proj2 (proj2 (proj2 (proj2
             (updateUserWorkflow_twice 1 nothing w_two 2000
                eq_refl eq_refl)))))) eq_refl).
Defined.

(** C5 as stated fails: renaming Alice at time 1000 and again at time
    2000 returns code 200 both times, but the record after the second
    application is not the record after the first: its [updated_on] is
    2000 instead of 1000. *)
Lemma updateUserWorkflow_twice_changes_updated_on :
  let once := updateUserWorkflow 1 rename w_two in
  let twice := updateUserWorkflow 1 rename (set_clock 2000 (snd once)) in
  fst once = Return (mkUpdateUserWorkflowResult 200 true 1)
  /\ fst twice = Return (mkUpdateUserWorkflowResult 200 true 1)
  /\ option_map updated_on (record_of 1 (table (snd once))) = Some 1000
  /\ option_map updated_on (record_of 1 (table (snd twice))) = Some 2000
  /\ rows (table (snd twice)) <> rows (table (snd once)).
Proof.
  cbv zeta. repeat split.
  intros H. vm_compute in H. discriminate H.
Qed.

(** C10.  For every id, with or without a matching record, when the
    store's update call succeeds the UpdateUser workflow returns code 200,
    the id and success: the number of affected rows is dropped, so for an
    id no visible record carries the table is left as it was and the
    result is the same as for an existing id. *)
Theorem updateUserWorkflow_success_for_any_id
  (i : Z) (userData : UserUpdateAttributes) (w : World) :
  next_fault w = None ->
  fst (updateUserWorkflow i userData w)
  = Return (mkUpdateUserWorkflowResult 200 true i)
  /\ ((forall r, In r (rows (table w)) -> visible r = true -> id r <> i) ->
      rows (table (snd (updateUserWorkflow i userData w))) = rows (table w)).
Proof.
  intros Hq. destruct (no_values userData) eqn:He.
  - rewrite (updateUserWorkflow_run_empty i userData w He).
    split; reflexivity.
  - rewrite (updateUserWorkflow_run i userData w He Hq).
    cbn [fst snd table rows]. split; [reflexivity|].
    apply pass_absent.
Qed.

Lemma updateUserWorkflow_success_for_any_id_witness :
  fst (updateUserWorkflow 999 rename w_two)
  = Return (mkUpdateUserWorkflowResult 200 true 999)
  /\ rows (table (snd (updateUserWorkflow 999 rename w_two)))
     = rows (table w_two)
  /\ fst (updateUserWorkflow 1 rename w_two)
     = Return (mkUpdateUserWorkflowResult 200 true 1).
Proof.
  split; [|split].
  - exact (proj1 (updateUserWorkflow_success_for_any_id
                    999 rename w_two eq_refl)).
  - reflexivity.
  - exact (proj1 (updateUserWorkflow_success_for_any_id
                    1 rename w_two eq_refl)).
Defined.

(** ** getAllUsersActivity and getAllUsersWorkflow *)

Lemma id_ascending_tail (a : UserAttributes) (l : list UserAttributes) :
  id_ascending (a :: l) = true -> id_ascending l = true.
Proof.
  destruct l as [|b l]; [reflexivity|].
  cbn. intros H. now apply andb_true_iff in H.
Qed.

Lemma id_ascending_skipn (n : nat) (l : list UserAttributes) :
  id_ascending l = true -> id_ascending (skipn n l) = true.
Proof.
  revert l. induction n as [|n IH]; intros l H; [exact H|].
  destruct l as [|a l]; [reflexivity|].
  cbn [skipn]. apply IH. exact (id_ascending_tail a l H).
Qed.

Lemma id_ascending_firstn (n : nat) (l : list UserAttributes) :
  id_ascending l = true -> id_ascending (firstn n l) = true.
Proof.
  revert l. induction n as [|n IH]; intros l H; [reflexivity|].
  destruct l as [|a l]; [reflexivity|].
  cbn [firstn]. specialize (IH l (id_ascending_tail a l H)).
  destruct l as [|b l]; [destruct n; reflexivity|].
  destruct n as [|n]; [reflexivity|].
  cbn [firstn] in *. cbn [id_ascending] in *.
  apply andb_true_iff in H as [Hab _]. now rewrite Hab.
Qed.

(** A run of the activity against a store that answers. *)
Lemma getAllUsersActivity_run (params : GetAllUsersParams) (w : World) :
  next_fault w = None ->
  getAllUsersActivity params w
  = (Return (firstn (default 100%nat (limit params))
               (skipn (default 0%nat (offset params))
                  (filter visible (rows (table w))))),
     mkWorld (table w) (clock w) (tl (faults w)) (history w) (submitted w)
             ((logs w ++ [(Info, "Fetching all users")])
                ++ [(Info, "Users fetched successfully")])).
Proof.
  intros Hq. run. now rewrite Hq.
Qed.

(** C6, as the code has it.  listRecords passes no ordering to the
    store: when the store answers, the page is the slice [offset, offset +
    limit) of the visible records in the store's scan order, so it is in
    id-ascending order when the store scans in that order; and over an
    unchanged store of two records, list(limit=1, offset=0) followed by
    list(limit=1, offset=1) returns the first and then the second record:
    no overlap and no gap. *)
Theorem getAllUsersActivity_page_in_scan_order
  (lim off : nat) (w : World) :
  next_fault w = None ->
  let page := firstn lim (skipn off (filter visible (rows (table w)))) in
  fst (getAllUsersActivity (mkParams (Some lim) (Some off)) w) = Return page
  /\ (id_ascending (filter visible (rows (table w))) = true ->
      id_ascending page = true)
  /\ (forall a b,
         filter visible (rows (table w)) = [a; b] ->
         next_fault (consume w) = None ->
         let first := getAllUsersActivity (mkParams (Some 1%nat) (Some 0%nat)) w in
         let second :=
           getAllUsersActivity (mkParams (Some 1%nat) (Some 1%nat)) (snd first) in
         fst first = Return [a] /\ fst second = Return [b]).
Proof.
  intros Hq page. split; [|split].
  - now rewrite (getAllUsersActivity_run _ w Hq).
  - intros H. now apply id_ascending_firstn, id_ascending_skipn.
  - intros a b Hab Hq' first second. subst first second.
    rewrite (getAllUsersActivity_run _ w Hq). cbn [fst snd].
    rewrite getAllUsersActivity_run by exact Hq'.
    cbn [fst table limit offset default]. rewrite Hab. split; reflexivity.
Qed.

Lemma getAllUsersActivity_page_in_scan_order_witness :
  fst (getAllUsersActivity (mkParams (Some 1%nat) (Some 1%nat)) w_bob_first)
  = Return [alice]
  /\ (let first :=
        getAllUsersActivity (mkParams (Some 1%nat) (Some 0%nat)) w_bob_first in
      let second :=
        getAllUsersActivity (mkParams (Some 1%nat) (Some 1%nat)) (snd first) in
      fst first = Return [bob] /\ fst second = Return [alice]).
Proof.
  split.
  - exact (proj1 (getAllUsersActivity_page_in_scan_order
                    1%nat 1%nat w_bob_first eq_refl)).
  - exact (proj2 (proj2 (getAllUsersActivity_page_in_scan_order
                           1%nat 1%nat w_bob_first eq_refl))
                 bob alice eq_refl eq_refl).
Defined.

(** C6 as stated fails: over a store that scans Bob (id 2) before Alice
    (id 1), listRecords returns Bob first, and its first page of one is
    Bob, not the record with the lowest id. *)
Lemma getAllUsersActivity_not_id_ascending :
  fst (getAllUsersActivity (mkParams None None) w_bob_first)
  = Return [bob; alice]
  /\ map id [bob; alice] = [2; 1]
  /\ id_ascending [bob; alice] = false
  /\ fst (getAllUsersActivity (mkParams (Some 1%nat) (Some 0%nat)) w_bob_first)
     = Return [bob].
Proof.
  repeat split.
Qed.

(** C7.  With limit and offset unspecified the ListUsers workflow runs
    as with limit 100 and offset 0: the one activity call it makes is
    listRecords with limit 100 and offset 0, and when the store answers it
    ends with code 200 and the records that call returned. *)
Theorem getAllUsersWorkflow_defaults (w : World) :
  getAllUsersWorkflow (mkParams None None) w
  = getAllUsersWorkflow (mkParams (Some 100%nat) (Some 0%nat)) w
  /\ history (snd (getAllUsersWorkflow (mkParams None None) w))
     = (history w ++ [GetAllUsers 100 0])%list
  /\ (next_fault w = None ->
      fst (getAllUsersWorkflow (mkParams None None) w)
      = Return (mkGetAllUsersResult 200
                  (firstn 100 (filter visible (rows (table w)))))).
Proof.
  split; [reflexivity|]. split.
  - run. destruct (hd None (faults w)); reflexivity.
  - intros Hq. run. now rewrite Hq.
Qed.

Lemma getAllUsersWorkflow_defaults_witness :
  history (snd (getAllUsersWorkflow (mkParams None None) w_two))
  = [GetAllUsers 100 0]
  /\ fst (getAllUsersWorkflow (mkParams None None) w_two)
     = Return (mkGetAllUsersResult 200 [alice; bob]).
Proof.
  split.
  - exact (proj1 (proj2 (getAllUsersWorkflow_defaults w_two))).
  - exact (proj2 (proj2 (getAllUsersWorkflow_defaults w_two)) eq_refl).
Defined.

(** ** Workflow ids of the Dispatch Layer *)

Lemma length_append (s1 s2 : string) :
  String.length (s1 ++ s2) = (String.length s1 + String.length s2)%nat.
Proof.
  induction s1 as [|c s1 IH]; cbn; [reflexivity|]. now rewrite IH.
Qed.

(** Workflows and activities submit nothing themselves. *)
Lemma createUserWorkflow_submitted (userData : UserData) (w : World) :
  submitted (snd (createUserWorkflow userData w)) = submitted w.
Proof.
  run. destruct (hd None (faults w)); [reflexivity|]. cbn.
  destruct (find _ (rows (table w))); cbn; [reflexivity|].
  destruct (hd None (tl (faults w))); reflexivity.
Qed.

Lemma updateUserWorkflow_submitted
  (i : Z) (userData : UserUpdateAttributes) (w : World) :
  submitted (snd (updateUserWorkflow i userData w)) = submitted w.
Proof.
  run. destruct (no_values userData); run; [reflexivity|].
  destruct (hd None (faults w)); reflexivity.
Qed.

Lemma getUserWorkflow_submitted (i : Z) (w : World) :
  submitted (snd (getUserWorkflow i w)) = submitted w.
Proof.
  run. destruct (hd None (faults w)); [reflexivity|]. cbn.
  destruct (find _ (rows (table w))); reflexivity.
Qed.

Lemma getAllUsersWorkflow_submitted (params : GetAllUsersParams) (w : World) :
  submitted (snd (getAllUsersWorkflow params w)) = submitted w.
Proof.
  run. destruct (hd None (faults w)); reflexivity.
Qed.

Lemma start_and_wait_submitted {A} (USER_QUEUE : string)
  (failure_of : JsError -> JsError) (type workflowId : string)
  (workflow : M A) (w : World) :
  (forall w0, submitted (snd (workflow w0)) = submitted w0) ->
  submitted (snd (start_and_wait USER_QUEUE failure_of type workflowId
                                 workflow w))
  = (submitted w ++ [mkSubmission type USER_QUEUE workflowId])%list.
Proof.
  intros H. unfold start_and_wait, try_catch, throw.
  match goal with |- context [workflow ?w0] =>
    specialize (H w0); destruct (workflow w0) as [[a|e] w1] end;
  exact H.
Qed.

(** C8, as the code has it.  The dispatcher builds the workflow id of
    create as "create-user-{mobile}-{timestamp}", of update as
    "update-user-{id}-{timestamp}" and of get as
    "get-user-{id}-{timestamp}"; the id of list is
    "get-all-users-{timestamp}", the timestamp alone with no key. *)
Theorem workflowId_formats
  (USER_QUEUE : string) (failure_of : JsError -> JsError) (w : World)
  (userData : UserData) (i : Z) (values : UserUpdateAttributes)
  (params : GetAllUsersParams) :
  submitted (snd (startCreateUser USER_QUEUE failure_of userData w))
  = (submitted w
     ++ [mkSubmission "createUserWorkflow" USER_QUEUE
           (spec_workflowId "create-user" (ud_mobile userData) (clock w))])%list
  /\ submitted (snd (startUpdateUser USER_QUEUE failure_of i values w))
     = (submitted w
        ++ [mkSubmission "updateUserWorkflow" USER_QUEUE
              (spec_workflowId "update-user" (string_of_Z i) (clock w))])%list
  /\ submitted (snd (startGetUser USER_QUEUE failure_of i w))
     = (submitted w
        ++ [mkSubmission "getUserWorkflow" USER_QUEUE
              (spec_workflowId "get-user" (string_of_Z i) (clock w))])%list
  /\ submitted (snd (startGetAllUsers USER_QUEUE failure_of params w))
     = (submitted w
        ++ [mkSubmission "getAllUsersWorkflow" USER_QUEUE
              ("get-all-users-" ++ string_of_Z (clock w))])%list.
Proof.
  unfold startCreateUser, startUpdateUser, startGetUser, startGetAllUsers,
    spec_workflowId, bind, Date_now.
  repeat split; rewrite start_and_wait_submitted.
  all: try reflexivity.
  - apply createUserWorkflow_submitted.
  - apply updateUserWorkflow_submitted.
  - apply getUserWorkflow_submitted.
  - apply getAllUsersWorkflow_submitted.
Qed.

(** C8 as stated fails for the list operation: submitted at time 1000
    its workflow id is "get-all-users-1000", whatever the input, and no
    key makes that the "{operation}-{key}-{timestamp}" of the
    operation. *)
Lemma list_workflowId_has_no_key :
  map workflowId
      (submitted (snd (startGetAllUsers "user" (fun e => e)
                         (mkParams None None) w_two)))
  = ["get-all-users-1000"]
  /\ map workflowId
         (submitted (snd (startGetAllUsers "user" (fun e => e)
                            (mkParams (Some 5%nat) (Some 7%nat)) w_two)))
     = ["get-all-users-1000"]
  /\ forall key, "get-all-users-1000" <> spec_workflowId "get-all-users" key 1000.
Proof.
  repeat split.
  intros key H. unfold spec_workflowId in H.
  apply (f_equal String.length) in H.
  change (string_of_Z 1000) with "1000" in H.
  cbn in H. rewrite length_append in H. cbn in H. lia.
Qed.

(** ** Create, then get *)

Lemma find_app {A} (p : A -> bool) (l l' : list A) :
  find p (l ++ l')
  = match find p l with
    | Some x => Some x
    | None => find p l'
    end.
Proof.
  induction l as [|a l IH]; cbn; [reflexivity|].
  destruct (p a); [reflexivity|exact IH].
Qed.

(** The invariant holds of the empty table and every workflow keeps it,
    whatever its outcome. *)
Lemma sequence_ahead_empty (n : Z) : sequence_ahead (mkTable [] n).
Proof.
  constructor.
Qed.

Lemma sequence_ahead_insert (userData : UserData) (t : Table) (now : Z) :
  sequence_ahead t ->
  sequence_ahead (mkTable (rows t ++ [created_row userData t now])
                          (next_id t + 1)).
Proof.
  unfold sequence_ahead. cbn [rows next_id]. intros H.
  apply Forall_app. split.
  - eapply Forall_impl; [|exact H]. cbn. intros u Hu. lia.
  - repeat constructor. cbn. lia.
Qed.

Lemma sequence_ahead_bump (t : Table) (n : Z) :
  next_id t <= n ->
  sequence_ahead t ->
  sequence_ahead (mkTable (rows t) n).
Proof.
  unfold sequence_ahead. cbn [rows next_id]. intros Hn H.
  eapply Forall_impl; [|exact H]. cbn. intros u Hu. lia.
Qed.

Lemma createUserWorkflow_sequence_ahead (userData : UserData) (w : World) :
  sequence_ahead (table w) ->
  sequence_ahead (table (snd (createUserWorkflow userData w))).
Proof.
  intros H. run.
  destruct (hd None (faults w)); cbn; [exact H|].
  destruct (find _ (rows (table w))); cbn; [exact H|].
  destruct (hd None (tl (faults w))) as [e|]; cbn.
  - apply sequence_ahead_bump; [|exact H].
    destruct (rejected_by_store e); lia.
  - now apply sequence_ahead_insert.
Qed.

(** The row just inserted is the one a query for the fresh id sees. *)
Lemma record_of_created (userData : UserData) (t : Table) (now : Z) :
  sequence_ahead t ->
  find (selected [("id", JNum (next_id t))])
       (rows t ++ [created_row userData t now])
  = Some (created_row userData t now).
Proof.
  intros Hseq. rewrite find_app.
  destruct (find _ (rows t)) as [u|] eqn:Hu.
  - destruct (record_of_Some _ _ _ Hu) as (Hin & _ & Hi).
    exfalso. unfold sequence_ahead in Hseq. rewrite Forall_forall in Hseq.
    specialize (Hseq u Hin). cbn in Hseq. lia.
  - cbn [find]. rewrite selected_id. unfold created_row. cbn.
    now rewrite Z.eqb_refl.
Qed.

(** What a 201 result tells about the run that gave it. *)
Lemma createUserWorkflow_created
  (userData : UserData) (w : World) (r : CreateUserResult) :
  fst (createUserWorkflow userData w) = Return r ->
  cr_code r = 201 ->
  cr_id r = JNum (next_id (table w))
  /\ rows (table (snd (createUserWorkflow userData w)))
     = (rows (table w) ++ [created_row userData (table w) (clock w)])%list
  /\ next_id (table (snd (createUserWorkflow userData w)))
     = next_id (table w) + 1.
Proof.
  run. destruct (hd None (faults w)); cbn; [discriminate|].
  destruct (find _ (rows (table w))); cbn.
  - intros H Hc. injection H as <-. discriminate Hc.
  - destruct (hd None (tl (faults w))); cbn; [discriminate|].
    intros H _. injection H as <-. repeat split.
Qed.

Lemma getUserWorkflow_result (i : Z) (w : World) :
  next_fault w = None ->
  fst (getUserWorkflow i w)
  = Return (match record_of i (table w) with
            | Some u => mkGetUserResult 200 None
                          (Some (project ["id"; "mobile"; "name"; "email"] u))
            | None => mkGetUserResult 404 (Some "User not found") None
            end).
Proof.
  intros Hq. run. rewrite Hq. cbn.
  destruct (find _ (rows (table w))); reflexivity.
Qed.

(** C9.  Round trip: when the CreateUser workflow has created a record
    (code 201) in a table whose primary-key sequence is ahead of its ids,
    getting the returned id right after, with the store answering, ends
    with code 200 and a record whose name, email and mobile are the ones
    submitted. *)
Theorem create_then_get_roundtrip
  (userData : UserData) (w : World) (r : CreateUserResult) :
  sequence_ahead (table w) ->
  fst (createUserWorkflow userData w) = Return r ->
  cr_code r = 201 ->
  next_fault (snd (createUserWorkflow userData w)) = None ->
  exists i,
    cr_id r = JNum i
    /\ fst (getUserWorkflow i (snd (createUserWorkflow userData w)))
       = Return (mkGetUserResult 200 None
                   (Some [("id", JNum i);
                          ("mobile", JStr (ud_mobile userData));
                          ("name", JStr (ud_name userData));
                          ("email", JStr (ud_email userData))])).
Proof.
  intros Hfresh Hr Hc Hq.
  destruct (createUserWorkflow_created userData w r Hr Hc) as (Hid & Hrows & _).
  exists (next_id (table w)). split; [exact Hid|].
  rewrite (getUserWorkflow_result _ _ Hq).
  unfold record_of. rewrite Hrows, (record_of_created _ _ _ Hfresh).
  reflexivity.
Qed.

Lemma create_then_get_roundtrip_witness :
  exists i,
    JNum 3 = JNum i
    /\ fst (getUserWorkflow i (snd (createUserWorkflow john w_two)))
       = Return (mkGetUserResult 200 None
                   (Some [("id", JNum i); ("mobile", JStr "1234567890");
                          ("name", JStr "John Doe");
                          ("email", JStr "john@x.com")])).
Proof.
  refine (create_then_get_roundtrip john w_two
            (mkCreateUserResult 201 "Your account created successfully."
               (JNum 3)
               (Some [("id", JNum 3); ("name", JStr "John Doe");
                      ("email", JStr "john@x.com");
                      ("mobile", JStr "1234567890")]))
            _ eq_refl eq_refl eq_refl).
  repeat constructor.
Defined.

(** * Further properties of the workflows *)

(** ** Runs of the workflows, case by case *)

Lemma createUserWorkflow_outcome (userData : UserData) (w : World) :
  let res := createUserWorkflow userData w in
  match next_fault w with
  | Some e => fst res = Throw e /\ table (snd res) = table w
  | None =>
      match duplicate_of (ud_mobile userData) (table w) with
      | Some d =>
          fst res
          = Return (mkCreateUserResult 409
                      "Duplicate mobile number found. Possible fraud."
                      (JNum (id d)) None)
          /\ table (snd res) = table w
      | None =>
          match next_fault (consume w) with
          | Some e =>
              fst res = Throw e
              /\ table (snd res)
                 = mkTable (rows (table w))
                           (if rejected_by_store e
                            then next_id (table w) + 1
                            else next_id (table w))
          | None =>
              let r := created_row userData (table w) (clock w) in
              fst res
              = Return (mkCreateUserResult 201
                          "Your account created successfully."
                          (JNum (id r))
                          (Some [("id", JNum (id r)); ("name", JStr (name r));
                                 ("email", JStr (email r));
                                 ("mobile", JStr (mobile r))]))
              /\ table (snd res)
                 = mkTable (rows (table w) ++ [r]) (next_id (table w) + 1)
          end
      end
  end.
Proof.
  run. destruct (hd None (faults w)); cbn.
  - destruct (table w). split; reflexivity.
  - destruct (find _ (rows (table w))); cbn.
    + destruct (table w). split; reflexivity.
    + destruct (hd None (tl (faults w))); cbn.
      * destruct (table w). split; reflexivity.
      * split; reflexivity.
Qed.

Lemma getUserWorkflow_table (i : Z) (w : World) :
  table (snd (getUserWorkflow i w)) = table w.
Proof.
  run. destruct (hd None (faults w)); cbn; [now destruct (table w)|].
  destruct (find _ (rows (table w))); cbn; now destruct (table w).
Qed.

Lemma getAllUsersWorkflow_table (params : GetAllUsersParams) (w : World) :
  table (snd (getAllUsersWorkflow params w)) = table w.
Proof.
  run. destruct (hd None (faults w)); cbn; now destruct (table w).
Qed.

(** ** What the workflows do to the table *)

(** X1.  The read paths never write: whatever the store answers, the
    duplicate check, the GetUser workflow and the ListUsers workflow leave
    the table exactly as it was. *)
Theorem read_paths_leave_table
  (key : string) (i : Z) (params : GetAllUsersParams) (w : World) :
  table (snd (checkDuplicateByMobileActivity key w)) = table w
  /\ table (snd (getUserWorkflow i w)) = table w
  /\ table (snd (getAllUsersWorkflow params w)) = table w.
Proof.
  split; [|split].
  - run. destruct (hd None (faults w)); cbn; [now destruct (table w)|].
    destruct (find _ (rows (table w))); cbn; now destruct (table w).
  - apply getUserWorkflow_table.
  - apply getAllUsersWorkflow_table.
Qed.


(** What a 201 result tells about the world it was obtained in. *)
Lemma createUserWorkflow_201 (userData : UserData) (w : World)
  (r : CreateUserResult) :
  fst (createUserWorkflow userData w) = Return r ->
  cr_code r = 201 ->
  duplicate_of (ud_mobile userData) (table w) = None
  /\ cr_id r = JNum (next_id (table w))
  /\ table (snd (createUserWorkflow userData w))
     = mkTable (rows (table w) ++ [created_row userData (table w) (clock w)])
               (next_id (table w) + 1).
Proof.
  pose proof (createUserWorkflow_outcome userData w) as H. cbv zeta in *.
  intros Hr Hc.
  destruct (next_fault w); [destruct H as [H _]; congruence|].
  destruct (duplicate_of _ _).
  { destruct H as [H _]. rewrite H in Hr. injection Hr as <-. discriminate. }
  destruct (next_fault (consume w)); [destruct H as [H _]; congruence|].
  destruct H as [H1 H2]. rewrite H1 in Hr. injection Hr as <-.
  repeat split. exact H2.
Qed.

(** X3.  Duplicate detection across two requests: once the CreateUser
    workflow has created a record (code 201), a second create with the same
    mobile, whatever its name and email, ends with code 409 and the id of
    the first record when the store answers its check, and inserts
    nothing. *)
Theorem second_create_is_duplicate
  (first second : UserData) (w : World) (r : CreateUserResult) :
  fst (createUserWorkflow first w) = Return r ->
  cr_code r = 201 ->
  ud_mobile second = ud_mobile first ->
  next_fault (snd (createUserWorkflow first w)) = None ->
  fst (createUserWorkflow second (snd (createUserWorkflow first w)))
  = Return (mkCreateUserResult 409
              "Duplicate mobile number found. Possible fraud."
              (cr_id r) None)
  /\ table (snd (createUserWorkflow second (snd (createUserWorkflow first w))))
     = table (snd (createUserWorkflow first w)).
Proof.
  intros Hr Hc Hm Hq.
  destruct (createUserWorkflow_201 first w r Hr Hc) as (Hd & Hid & Ht).
  set (w1 := snd (createUserWorkflow first w)) in *.
  pose proof (createUserWorkflow_outcome second w1) as H. cbv zeta in H.
  rewrite Hq in H.
  assert (Hdup : duplicate_of (ud_mobile second) (table w1)
                 = Some (created_row first (table w) (clock w))).
  { unfold duplicate_of in *. rewrite Ht, Hm. cbn [rows].
    rewrite find_app, Hd. cbn [find]. rewrite selected_mobile.
    unfold created_row. cbn. now rewrite String.eqb_refl. }
  rewrite Hdup in H. rewrite Hid. exact H.
Qed.

Lemma second_create_is_duplicate_witness :
  fst (createUserWorkflow (mkUserData "Johnny" "j@y.org" "1234567890")
         (snd (createUserWorkflow john w_two)))
  = Return (mkCreateUserResult 409
              "Duplicate mobile number found. Possible fraud." (JNum 3) None)
  /\ table (snd (createUserWorkflow
                   (mkUserData "Johnny" "j@y.org" "1234567890")
                   (snd (createUserWorkflow john w_two))))
     = table (snd (createUserWorkflow john w_two)).
Proof.
  exact (second_create_is_duplicate john
           (mkUserData "Johnny" "j@y.org" "1234567890") w_two
           (mkCreateUserResult 201 "Your account created successfully."
              (JNum 3)
              (Some [("id", JNum 3); ("name", JStr "John Doe");
                     ("email", JStr "john@x.com");
                     ("mobile", JStr "1234567890")]))
           eq_refl eq_refl eq_refl eq_refl).
Defined.

(** X4.  The duplicate check does not see soft-deleted records: when
    every record carrying the mobile is soft-deleted and the store answers,
    the CreateUser workflow creates the record and returns code 201 with
    the fresh id. *)
Theorem soft_deleted_mobile_is_free (userData : UserData) (w : World) :
  (forall u, In u (rows (table w)) -> mobile u = ud_mobile userData ->
             visible u = false) ->
  next_fault w = None ->
  next_fault (consume w) = None ->
  exists r,
    fst (createUserWorkflow userData w) = Return r
    /\ cr_code r = 201
    /\ cr_id r = JNum (next_id (table w))
    /\ rows (table (snd (createUserWorkflow userData w)))
       = (rows (table w) ++ [created_row userData (table w) (clock w)])%list.
Proof.
  intros Hgone Hq Hq'.
  pose proof (createUserWorkflow_outcome userData w) as H. cbv zeta in H.
  rewrite Hq in H.
  destruct (duplicate_of _ _) as [d|] eqn:Hd.
  - destruct (duplicate_of_Some _ _ _ Hd) as (Hin & Hv & Hm).
    rewrite (Hgone d Hin Hm) in Hv. discriminate.
  - rewrite Hq' in H. destruct H as [H1 H2]. eexists. split; [exact H1|].
    repeat split. now rewrite H2.
Qed.

Lemma soft_deleted_mobile_is_free_witness :
  exists r,
    fst (createUserWorkflow john w_carol_gone) = Return r
    /\ cr_code r = 201
    /\ cr_id r = JNum 4
    /\ rows (table (snd (createUserWorkflow john w_carol_gone)))
       = [alice; bob; carol_gone; created_row john (table w_carol_gone) 1000].
Proof.
  refine (soft_deleted_mobile_is_free john w_carol_gone _ eq_refl eq_refl).
  intros u [<-|[<-|[<-|[]]]] Hm; try reflexivity; discriminate Hm.
Defined.

(** ** Updates *)

Lemma updateUserWorkflow_failure
  (i : Z) (userData : UserUpdateAttributes) (w : World) (e : JsError) :
  no_values userData = false ->
  next_fault w = Some e ->
  table (snd (updateUserWorkflow i userData w)) = table w.
Proof.
  intros He Hq. run. rewrite He. run. rewrite Hq. cbn.
  now destruct (table w).
Qed.


Lemma filter_split_permutation {A} (p : A -> bool) (l : list A) :
  Permutation (filter (fun x => negb (p x)) l ++ filter p l) l.
Proof.
  induction l as [|a l IH]; cbn; [constructor|].
  destruct (p a); cbn.
  - symmetry. apply Permutation_cons_app. now symmetry.
  - now constructor.
Qed.

(** The table after the workflow, case by case. *)
Lemma updateUserWorkflow_table
  (i : Z) (userData : UserUpdateAttributes) (w : World) :
  table (snd (updateUserWorkflow i userData w)) = table w
  \/ table (snd (updateUserWorkflow i userData w))
     = mkTable
         (rewritten (fun r => touch (clock w) (assign userData r))
                    (selected [("id", JNum i)]) (rows (table w)))
         (next_id (table w)).
Proof.
  destruct (no_values userData) eqn:He.
  - left. now rewrite (updateUserWorkflow_run_empty i userData w He).
  - destruct (next_fault w) as [e|] eqn:Hq.
    + left. now apply (updateUserWorkflow_failure i userData w e).
    + right. now rewrite (updateUserWorkflow_run i userData w He Hq).
Qed.


Lemma find_hd_filter {A} (p : A -> bool) (l : list A) :
  find p l = hd_error (filter p l).
Proof.
  induction l as [|a l IH]; cbn; [reflexivity|].
  now destruct (p a).
Qed.

(** The record a query for [i] finds after a pass of the update. *)
Lemma record_of_rewritten (i now : Z) (v : UserUpdateAttributes)
  (l : list UserAttributes) :
  find (selected [("id", JNum i)])
       (rewritten (fun r => touch now (assign v r))
                  (selected [("id", JNum i)]) l)
  = match find (selected [("id", JNum i)]) l with
    | Some r => if stays i v then Some (touch now (assign v r)) else None
    | None => None
    end.
Proof.
  unfold rewritten. rewrite find_app.
  rewrite (find_hd_filter _ (filter _ l)), filter_none.
  2:{ intros x Hx. exact (left_alone_not_selected i l x Hx). }
  cbn [hd_error]. rewrite (find_hd_filter _ l).
  destruct (filter (selected [("id", JNum i)]) l) as [|r rs] eqn:Hf;
    [reflexivity|].
  assert (Hr : selected [("id", JNum i)] r = true).
  { assert (Hin : In r (filter (selected [("id", JNum i)]) l))
      by (rewrite Hf; now left).
    now apply filter_In in Hin. }
  cbn [hd_error map]. destruct (stays i v) eqn:Hs.
  - cbn [find]. now rewrite (selected_id_updated i now v r Hr), Hs.
  - apply find_all_false. intros x Hx.
    rewrite (written_selected i v now l x); [exact Hs|].
    rewrite Hf. exact Hx.
Qed.

(** X6.  Update, then get: when the store answers both calls, getting id
    [i] right after the UpdateUser workflow for [i] returns code 200 and
    the record with each of mobile, name and email replaced by the value
    the update gave and kept where the update gave none, provided the
    update left the record under that id and visible; an update that sets
    another id or a deletion date makes the get end with 404, and so does
    an update of an id no visible record carried: an update never creates a
    record. *)
Theorem update_then_get
  (i : Z) (userData : UserUpdateAttributes) (w : World) :
  next_fault w = None ->
  next_fault (consume w) = None ->
  fst (getUserWorkflow i (snd (updateUserWorkflow i userData w)))
  = Return
      (match record_of i (table w) with
       | Some r =>
           if stays i userData then
             mkGetUserResult 200 None
               (Some [("id", JNum i);
                      ("mobile",
                       JStr (default (mobile r) (up_mobile userData)));
                      ("name", JStr (default (name r) (up_name userData)));
                      ("email", JStr (default (email r) (up_email userData)))])
           else mkGetUserResult 404 (Some "User not found") None
       | None => mkGetUserResult 404 (Some "User not found") None
       end).
Proof.
  intros Hq Hq'. destruct (no_values userData) eqn:He.
  - rewrite (updateUserWorkflow_run_empty i userData w He). cbn [snd].
    rewrite getUserWorkflow_result by exact Hq.
    unfold record_of. cbn [table].
    destruct (find _ (rows (table w))) as [r|] eqn:Hr; [|reflexivity].
    destruct (record_of_Some i (table w) r Hr) as (_ & _ & Hi).
    unfold no_values in He. unfold stays, project, default. cbn.
    destruct (up_name userData), (up_email userData), (up_mobile userData),
      (up_suspend_status userData), (up_updated_by userData),
      (up_created_by userData), (up_deleted_by userData), (up_id userData),
      (up_created_on userData), (up_deleted_on userData);
      try discriminate He.
    cbn. now rewrite Hi.
  - rewrite (updateUserWorkflow_run i userData w He Hq). cbn [snd].
    rewrite getUserWorkflow_result by exact Hq'.
    unfold record_of. cbn [table rows]. rewrite record_of_rewritten.
    destruct (find _ (rows (table w))) as [r|] eqn:Hr; [|reflexivity].
    destruct (record_of_Some i (table w) r Hr) as (_ & _ & Hi).
    destruct (stays i userData) eqn:Hs; [|reflexivity].
    unfold stays in Hs. apply andb_true_iff in Hs as [_ Hs].
    unfold project, default. cbn.
    destruct (up_id userData) as [j|].
    + apply Z.eqb_eq in Hs. subst j.
      destruct (up_mobile userData), (up_name userData), (up_email userData);
        reflexivity.
    + rewrite Hi.
      destruct (up_mobile userData), (up_name userData), (up_email userData);
        reflexivity.
Qed.

Lemma update_then_get_witness :
  fst (getUserWorkflow 1 (snd (updateUserWorkflow 1 rename w_two)))
  = Return (mkGetUserResult 200 None
              (Some [("id", JNum 1); ("mobile", JStr "1111111111");
                     ("name", JStr "Alicia");
                     ("email", JStr "alice@x.com")]))
  /\ fst (getUserWorkflow 999 (snd (updateUserWorkflow 999 rename w_two)))
     = Return (mkGetUserResult 404 (Some "User not found") None)
  /\ fst (getUserWorkflow 1 (snd (updateUserWorkflow 1 move_to_7 w_two)))
     = Return (mkGetUserResult 404 (Some "User not found") None).
Proof.
  split; [|split].
  - exact (update_then_get 1 rename w_two eq_refl eq_refl).
  - exact (update_then_get 999 rename w_two eq_refl eq_refl).
  - exact (update_then_get 1 move_to_7 w_two eq_refl eq_refl).
Defined.

(** ** The primary key *)

Lemma primary_key_insert (userData : UserData) (t : Table) (now : Z) :
  primary_key t ->
  primary_key (mkTable (rows t ++ [created_row userData t now])
                       (next_id t + 1)).
Proof.
  intros [Hseq Hnd]. split; [now apply sequence_ahead_insert|].
  cbn [rows]. rewrite map_app. cbn [map created_row id].
  apply NoDup_app; repeat split; trivial.
  - repeat constructor. intros [].
  - intros a Ha [<-|[]]. apply in_map_iff in Ha as (u & Hu & Hin).
    unfold sequence_ahead in Hseq. rewrite Forall_forall in Hseq.
    specialize (Hseq u Hin). cbn in Hseq. rewrite Hu in Hseq.
    unfold created_row in Hseq. cbn in Hseq. lia.
Qed.

Lemma primary_key_bump (t : Table) (n : Z) :
  next_id t <= n -> primary_key t -> primary_key (mkTable (rows t) n).
Proof.
  intros Hn [Hseq Hnd]. split; [now apply sequence_ahead_bump|exact Hnd].
Qed.

Lemma createUserWorkflow_table_cases (userData : UserData) (w : World) :
  (exists n, next_id (table w) <= n
             /\ table (snd (createUserWorkflow userData w))
                = mkTable (rows (table w)) n)
  \/ table (snd (createUserWorkflow userData w))
     = mkTable (rows (table w) ++ [created_row userData (table w) (clock w)])
               (next_id (table w) + 1).
Proof.
  pose proof (createUserWorkflow_outcome userData w) as H. cbv zeta in *.
  destruct (next_fault w).
  { left. exists (next_id (table w)). destruct H as [_ ->].
    split; [lia|now destruct (table w)]. }
  destruct (duplicate_of _ _).
  { left. exists (next_id (table w)). destruct H as [_ ->].
    split; [lia|now destruct (table w)]. }
  destruct (next_fault (consume w)) as [e|]; [|right; apply H].
  left. eexists. split; [|apply H]. destruct (rejected_by_store e); lia.
Qed.

(** An update that sets no id keeps the primary key. *)
Lemma primary_key_rewritten (i now : Z) (v : UserUpdateAttributes)
  (t : Table) :
  up_id v = None ->
  primary_key t ->
  primary_key
    (mkTable (rewritten (fun r => touch now (assign v r))
                        (selected [("id", JNum i)]) (rows t))
             (next_id t)).
Proof.
  intros Hid [Hseq Hnd].
  assert (Hids : map id (rewritten (fun r => touch now (assign v r))
                                   (selected [("id", JNum i)]) (rows t))
                 = map id (filter (fun r => negb (selected [("id", JNum i)] r))
                                  (rows t)
                           ++ filter (selected [("id", JNum i)]) (rows t))).
  { unfold rewritten. rewrite !map_app, map_map. f_equal.
    apply map_ext. intros u. unfold touch, assign. cbn. now rewrite Hid. }
  split.
  - unfold sequence_ahead in *. cbn [rows next_id].
    apply Forall_forall. intros u Hu.
    assert (Hin : In (id u) (map id (rows t))).
    { apply (Permutation_in (id u)
               (Permutation_map id (filter_split_permutation
                                      (selected [("id", JNum i)]) (rows t)))).
      rewrite <- Hids. now apply in_map. }
    apply in_map_iff in Hin as (u0 & Hu0 & Hin0).
    rewrite Forall_forall in Hseq. specialize (Hseq u0 Hin0). cbn in Hseq.
    cbn. lia.
  - cbn [rows]. rewrite Hids.
    apply (Permutation_NoDup
             (Permutation_sym
                (Permutation_map id (filter_split_permutation
                                       (selected [("id", JNum i)]) (rows t))))).
    exact Hnd.
Qed.

(** X7.  The primary key is an invariant of the workflows: if the id
    sequence is ahead of every id in the table and no two rows share an
    id, the same holds after the CreateUser, GetUser and ListUsers
    workflows, whatever their outcome, and after the UpdateUser workflow
    for every update that does not set the id column; in particular a
    created record never takes an id in use, not even that of a
    soft-deleted row. *)
Theorem workflows_keep_primary_key
  (userData : UserData) (i : Z) (values : UserUpdateAttributes)
  (params : GetAllUsersParams) (w : World) :
  primary_key (table w) ->
  primary_key (table (snd (createUserWorkflow userData w)))
  /\ (up_id values = None ->
      primary_key (table (snd (updateUserWorkflow i values w))))
  /\ primary_key (table (snd (getUserWorkflow i w)))
  /\ primary_key (table (snd (getAllUsersWorkflow params w))).
Proof.
  intros Hpk. split; [|split; [|split]].
  - destruct (createUserWorkflow_table_cases userData w)
      as [(n & Hn & ->)| ->];
      [now apply primary_key_bump|now apply primary_key_insert].
  - intros Hid.
    destruct (updateUserWorkflow_table i values w) as [-> | ->];
      [exact Hpk|now apply primary_key_rewritten].
  - now rewrite getUserWorkflow_table.
  - now rewrite getAllUsersWorkflow_table.
Qed.

Lemma workflows_keep_primary_key_witness :
  primary_key (table (snd (createUserWorkflow john w_carol_gone)))
  /\ primary_key (table (snd (updateUserWorkflow 1 rename w_carol_gone)))
  /\ primary_key (table (snd (getUserWorkflow 1 w_carol_gone)))
  /\ primary_key
       (table (snd (getAllUsersWorkflow (mkParams None None) w_carol_gone))).
Proof.
  assert (Hpk : primary_key (table w_carol_gone)).
  { split.
    - repeat constructor.
    - repeat constructor; cbn; intuition discriminate. }
  destruct (workflows_keep_primary_key john 1 rename (mkParams None None)
              w_carol_gone Hpk) as (H1 & H2 & H3 & H4).
  exact (conj H1 (conj (H2 eq_refl) (conj H3 H4))).
Defined.

(** X8.  Each of the UpdateUser, GetUser and ListUsers workflows
    schedules exactly one activity call, whatever that call's outcome: the
    update with the id and the data it was given, the get with the id, and
    the list with the limit and offset after defaulting. *)
Theorem single_activity_workflows
  (i : Z) (values : UserUpdateAttributes) (params : GetAllUsersParams)
  (w : World) :
  history (snd (updateUserWorkflow i values w))
  = (history w ++ [UpdateUser i values])%list
  /\ history (snd (getUserWorkflow i w)) = (history w ++ [GetUser i])%list
  /\ history (snd (getAllUsersWorkflow params w))
     = (history w ++ [GetAllUsers (default 100%nat (limit params))
                                  (default 0%nat (offset params))])%list.
Proof.
  split; [|split]; run.
  - destruct (no_values values); run; [reflexivity|].
    destruct (hd None (faults w)); reflexivity.
  - destruct (hd None (faults w)); cbn; [reflexivity|].
    destruct (find _ (rows (table w))); reflexivity.
  - destruct (hd None (faults w)); reflexivity.
Qed.

(** ** Pages *)

Lemma getAllUsersActivity_failure (params : GetAllUsersParams) (w : World)
  (e : JsError) :
  next_fault w = Some e -> fst (getAllUsersActivity params w) = Throw e.
Proof.
  intros Hq. run. now rewrite Hq.
Qed.

Lemma firstn_then_firstn {A} (a b : nat) (l : list A) :
  (firstn a l ++ firstn b (skipn a l))%list = firstn (a + b) l.
Proof.
  revert l. induction a as [|a IH]; intros l; [reflexivity|].
  destruct l as [|x l]; cbn.
  - now destruct b.
  - now rewrite IH.
Qed.

Lemma In_firstn_skipn {A} (n m : nat) (l : list A) (x : A) :
  In x (firstn n (skipn m l)) -> In x l.
Proof.
  intros H.
  rewrite <- (firstn_skipn m l). apply in_or_app. right.
  rewrite <- (firstn_skipn n (skipn m l)). apply in_or_app. now left.
Qed.

(** X9.  When the store answers, listRecords returns a page, never an
    error: the page holds at most [limit] records (100 when unspecified),
    every one of them a record of the table that is not soft-deleted; and
    for an offset at or beyond the number of visible records the page
    returned is the empty one. *)
Theorem getAllUsersActivity_page_bounds
  (params : GetAllUsersParams) (w : World) :
  next_fault w = None ->
  exists page,
    fst (getAllUsersActivity params w) = Return page
    /\ (List.length page <= default 100 (limit params))%nat
    /\ Forall (fun u => In u (rows (table w)) /\ visible u = true) page
    /\ ((List.length (filter visible (rows (table w)))
         <= default 0 (offset params))%nat -> page = []).
Proof.
  intros Hq. rewrite (getAllUsersActivity_run params w Hq). cbn [fst].
  eexists. split; [reflexivity|].
  split; [apply firstn_le_length|]. split.
  - apply Forall_forall. intros u Hu.
    apply In_firstn_skipn in Hu. now apply filter_In in Hu.
  - intros Hlen. rewrite skipn_all2 by exact Hlen. apply firstn_nil.
Qed.

Lemma getAllUsersActivity_page_bounds_witness :
  fst (getAllUsersActivity (mkParams None (Some 2%nat)) w_carol_gone)
  = Return []
  /\ fst (getAllUsersActivity (mkParams (Some 1%nat) (Some 7%nat))
                              w_carol_gone)
     = Return [].
Proof.
  split.
  - destruct (getAllUsersActivity_page_bounds
                (mkParams None (Some 2%nat)) w_carol_gone eq_refl)
      as (page & Hp & _ & _ & He).
    rewrite Hp. f_equal. apply He. cbn. lia.
  - destruct (getAllUsersActivity_page_bounds
                (mkParams (Some 1%nat) (Some 7%nat)) w_carol_gone eq_refl)
      as (page & Hp & _ & _ & He).
    rewrite Hp. f_equal. apply He. cbn. lia.
Defined.

(** X10.  Consecutive pages tile the listing: over an unchanged table,
    with the store answering, the page of [l1] records at offset [o]
    followed by the page of [l2] records at offset [o + l1] is exactly the
    page of [l1 + l2] records at offset [o]: nothing is repeated and
    nothing is skipped between two pages. *)
Theorem getAllUsersActivity_pages_tile (l1 l2 o : nat) (w : World) :
  next_fault w = None ->
  next_fault (consume w) = None ->
  let first := getAllUsersActivity (mkParams (Some l1) (Some o)) w in
  let second :=
    getAllUsersActivity (mkParams (Some l2) (Some (o + l1)%nat)) (snd first) in
  exists p1 p2,
    fst first = Return p1 /\ fst second = Return p2
    /\ fst (getAllUsersActivity (mkParams (Some (l1 + l2)%nat) (Some o)) w)
       = Return (p1 ++ p2)%list.
Proof.
  intros Hq Hq' first second. subst first second.
  rewrite !(getAllUsersActivity_run _ w Hq). cbn [fst snd].
  rewrite getAllUsersActivity_run by exact Hq'.
  cbn [fst table limit offset default].
  do 2 eexists. split; [reflexivity|]. split; [reflexivity|].
  f_equal. rewrite (Nat.add_comm o l1), <- skipn_skipn.
  symmetry. apply firstn_then_firstn.
Qed.

Lemma getAllUsersActivity_pages_tile_witness :
  let first :=
    getAllUsersActivity (mkParams (Some 2%nat) (Some 0%nat)) w_three in
  let second :=
    getAllUsersActivity (mkParams (Some 1%nat) (Some 2%nat)) (snd first) in
  exists p1 p2,
    fst first = Return p1 /\ fst second = Return p2
    /\ fst (getAllUsersActivity (mkParams (Some 3%nat) (Some 0%nat)) w_three)
       = Return (p1 ++ p2)%list.
Proof.
  exact (getAllUsersActivity_pages_tile 2 1 0 w_three eq_refl eq_refl).
Defined.

(** ** The HTTP handlers, end to end *)

Lemma start_and_wait_fst {A} (USER_QUEUE : string)
  (failure_of : JsError -> JsError) (type workflowId : string)
  (workflow : M A) (w : World) :
  fst (start_and_wait USER_QUEUE failure_of type workflowId workflow w)
  = match fst (workflow (submit (mkSubmission type USER_QUEUE workflowId) w))
    with
    | Return a => Return a
    | Throw e => Throw (failure_of e)
    end.
Proof.
  unfold start_and_wait, try_catch, throw, submit.
  now destruct (workflow _) as [[a|e] w'].
Qed.

(** A handler of the shape [try { r = await c; reply } catch (err) { ... }]
    never rejects. *)
Lemma handler_fst {A B} (c : M A) (k : A -> M B) (reply : A -> B)
  (h : JsError -> B) (w : World) :
  (forall r w', k r w' = (Return (reply r), w')) ->
  fst (try_catch (bind c k) (fun err => ret (h err)) w)
  = Return (match fst (c w) with
            | Return r => reply r
            | Throw e => h e
            end).
Proof.
  intros Hk. unfold try_catch, bind, ret.
  destruct (c w) as [[r|e] w']; cbn; [|reflexivity].
  now rewrite Hk.
Qed.

Lemma getAllUsersWorkflow_fst (params : GetAllUsersParams) (w : World) :
  fst (getAllUsersWorkflow params w)
  = match next_fault w with
    | Some e => Throw e
    | None =>
        Return (mkGetAllUsersResult 200
                  (firstn (default 100%nat (limit params))
                     (skipn (default 0%nat (offset params))
                        (filter visible (rows (table w))))))
    end.
Proof.
  run. now destruct (hd None (faults w)).
Qed.

(** X12.  The get handler, for a request whose store query is answered:
    it sends 200 with the record (id, mobile, name, email) when a
    visible record carries the id, and 404 with the message
    "User not found" when none does. *)
Theorem getUser_handler_reply
  (USER_QUEUE : string) (failure_of : JsError -> JsError)
  (i : Z) (w : World) :
  next_fault w = None ->
  fst (getUser USER_QUEUE failure_of i w)
  = Return (match record_of i (table w) with
            | Some r =>
                Send 200
                  (RecordBody
                     (Some [("id", JNum (id r));
                            ("mobile", JStr (mobile r));
                            ("name", JStr (name r));
                            ("email", JStr (email r))]))
            | None =>
                Send 404
                  (ObjectBody [("message", Prim (JStr "User not found"))])
            end).
Proof.
  intros Hq. unfold getUser. rewrite handler_fst with
    (reply := fun result =>
       if gr_code result =? 404 then
         Send 404
           (ObjectBody
              [("message", Prim (match gr_message result with
                                 | Some m => JStr m
                                 | None => JUndefined
                                 end))])
       else Send (gr_code result) (RecordBody (gr_user result))).
  2:{ intros r w'. unfold ret. now destruct (gr_code r =? 404). }
  f_equal. unfold startGetUser, bind, Date_now.
  rewrite start_and_wait_fst.
  rewrite getUserWorkflow_result by exact Hq.
  change (table (submit _ w)) with (table w).
  now destruct (record_of i (table w)).
Qed.

Lemma getUser_handler_reply_witness :
  fst (getUser "user" (fun e => e) 2 w_carol_gone)
  = Return (Send 200
              (RecordBody
                 (Some [("id", JNum 2); ("mobile", JStr "2222222222");
                        ("name", JStr "Bob"); ("email", JStr "bob@x.com")])))
  /\ fst (getUser "user" (fun e => e) 3 w_carol_gone)
     = Return (Send 404
                 (ObjectBody [("message", Prim (JStr "User not found"))])).
Proof.
  split.
  - exact (getUser_handler_reply "user" (fun e => e) 2 w_carol_gone eq_refl).
  - exact (getUser_handler_reply "user" (fun e => e) 3 w_carol_gone eq_refl).
Defined.

(** X13.  The list handler takes no paging from the request: it asks
    for limit 100 and offset 0 in a single listRecords call and, when the
    store answers that call, sends 200 with the first 100 visible records
    in the store's order. *)
Theorem index_handler_reply
  (USER_QUEUE : string) (failure_of : JsError -> JsError) (w : World) :
  next_fault w = None ->
  fst (index USER_QUEUE failure_of w)
  = Return (Send 200
              (ArrayBody (firstn 100 (filter visible (rows (table w))))))
  /\ history (snd (index USER_QUEUE failure_of w))
     = (history w ++ [GetAllUsers 100 0])%list.
Proof.
  intros Hq. split.
  - unfold index. cbv zeta. rewrite handler_fst with
      (reply := fun result =>
         Send (lr_code result) (ArrayBody (lr_users result)))
      by reflexivity.
    f_equal. unfold startGetAllUsers, bind, Date_now. cbn [default limit offset].
    rewrite start_and_wait_fst, getAllUsersWorkflow_fst.
    change (next_fault (submit _ w)) with (next_fault w).
    now rewrite Hq.
  - unfold next_fault in Hq. unfold index, startGetAllUsers, start_and_wait.
    run. now rewrite Hq.
Qed.

Lemma index_handler_reply_witness :
  fst (index "user" (fun e => e) w_carol_gone)
  = Return (Send 200 (ArrayBody [alice; bob]))
  /\ history (snd (index "user" (fun e => e) w_carol_gone))
     = [GetAllUsers 100 0].
Proof.
  exact (index_handler_reply "user" (fun e => e) w_carol_gone eq_refl).
Defined.

Lemma handler_with_catch_fst {A B} (c : M A) (k : A -> M B)
  (h : JsError -> M B) (reply : A -> B) (caught : JsError -> B) (w : World) :
  (forall r w', k r w' = (Return (reply r), w')) ->
  (forall e w', h e w' = (Return (caught e), w')) ->
  fst (try_catch (bind c k) h w)
  = Return (match fst (c w) with
            | Return r => reply r
            | Throw e => caught e
            end).
Proof.
  intros Hk Hh. unfold try_catch, bind.
  destruct (c w) as [[r|e] w']; cbn; [now rewrite Hk|now rewrite Hh].
Qed.

Lemma startCreateUser_fst
  (USER_QUEUE : string) (failure_of : JsError -> JsError)
  (body : UserData) (w : World) :
  fst (startCreateUser USER_QUEUE failure_of body w)
  = match next_fault w with
    | Some e => Throw (failure_of e)
    | None =>
        match duplicate_of (ud_mobile body) (table w) with
        | Some d =>
            Return (mkCreateUserResult 409
                      "Duplicate mobile number found. Possible fraud."
                      (JNum (id d)) None)
        | None =>
            match next_fault (consume w) with
            | Some e => Throw (failure_of e)
            | None =>
                Return (mkCreateUserResult 201
                          "Your account created successfully."
                          (JNum (next_id (table w)))
                          (Some [("id", JNum (next_id (table w)));
                                 ("name", JStr (ud_name body));
                                 ("email", JStr (ud_email body));
                                 ("mobile", JStr (ud_mobile body))]))
            end
        end
    end.
Proof.
  unfold startCreateUser, bind, Date_now. rewrite start_and_wait_fst.
  match goal with |- context [createUserWorkflow body ?w0] =>
    pose proof (createUserWorkflow_outcome body w0) as H end.
  cbv zeta in H.
  unfold next_fault, consume, set_faults, duplicate_of, submit in *.
  cbn [table faults] in *.
  destruct (hd None (faults w)); [now rewrite (proj1 H)|].
  destruct (find _ (rows (table w))); [now rewrite (proj1 H)|].
  destruct (hd None (tl (faults w))); now rewrite (proj1 H).
Qed.






(** X15.  The create handler has three answers only: for every request
    and every behaviour of the store it responds with status 201 or 409,
    or passes an error to the error middleware; its 400 branch is never
    taken, since the workflow returns no such code. *)
Theorem create_handler_statuses
  (USER_QUEUE : string) (failure_of : JsError -> JsError)
  (body : UserData) (w : World) :
  exists reply,
    fst (create USER_QUEUE failure_of body w) = Return reply
    /\ match reply with
       | Respond status _ => status = 201 \/ status = 409
       | Next _ => True
       end.
Proof.
  unfold create.
  rewrite handler_with_catch_fst with
    (reply := fun result =>
       if cr_code result =? 409 then
         Respond 409 [("message", Prim (JStr (cr_message result)));
                      ("id", Prim (cr_id result))]
       else if cr_code result =? 400 then
         Respond 400 [("message", Prim (JStr (cr_message result)))]
       else
         Respond 201 [("message", Prim (JStr (cr_message result)));
                      ("id", Prim (cr_id result));
                      ("user", match cr_user result with
                               | Some u => Obj u
                               | None => Prim JUndefined
                               end)])
    (caught := fun err =>
       if String.eqb (err_name err) "SequelizeUniqueConstraintError"
       then Respond 409 [("message", Prim (messagesMap 409));
                         ("error", Prim (JStr (err_message err)))]
       else Next err).
  2:{ intros r w'. unfold ret.
      destruct (cr_code r =? 409); [reflexivity|].
      now destruct (cr_code r =? 400). }
  2:{ intros e w'. unfold ret. now destruct (String.eqb _ _). }
  eexists. split; [reflexivity|].
  rewrite startCreateUser_fst.
  assert (Hc : forall e : JsError,
             match (if String.eqb (err_name e) "SequelizeUniqueConstraintError"
                    then Respond 409
                           [("message", Prim (messagesMap 409));
                            ("error", Prim (JStr (err_message e)))]
                    else Next e) with
             | Respond status _ => status = 201 \/ status = 409
             | Next _ => True
             end).
  { intros e. destruct (String.eqb _ _); auto. }
  destruct (next_fault w); [apply Hc|].
  destruct (duplicate_of _ _); [cbn; auto|].
  destruct (next_fault (consume w)); [apply Hc|cbn; auto].
Qed.

(** ** Workflow ids: which requests can share one *)

Lemma last_workflowId_submitted (w w' : World) (s : Submission) :
  submitted w' = (submitted w ++ [s])%list ->
  last_workflowId w' = workflowId s.
Proof.
  intros H. unfold last_workflowId. rewrite H, map_app. apply last_last.
Qed.

Lemma startCreateUser_workflowId
  (USER_QUEUE : string) (failure_of : JsError -> JsError)
  (userData : UserData) (w : World) :
  last_workflowId (snd (startCreateUser USER_QUEUE failure_of userData w))
  = "create-user-" ++ ud_mobile userData ++ "-" ++ string_of_Z (clock w).
Proof.
  unfold startCreateUser, bind, Date_now.
  erewrite last_workflowId_submitted;
    [|apply start_and_wait_submitted, createUserWorkflow_submitted].
  reflexivity.
Qed.

Lemma startUpdateUser_workflowId
  (USER_QUEUE : string) (failure_of : JsError -> JsError)
  (i : Z) (values : UserUpdateAttributes) (w : World) :
  last_workflowId (snd (startUpdateUser USER_QUEUE failure_of i values w))
  = "update-user-" ++ string_of_Z i ++ "-" ++ string_of_Z (clock w).
Proof.
  unfold startUpdateUser, bind, Date_now.
  erewrite last_workflowId_submitted;
    [|apply start_and_wait_submitted, updateUserWorkflow_submitted].
  reflexivity.
Qed.

Lemma startGetUser_workflowId
  (USER_QUEUE : string) (failure_of : JsError -> JsError)
  (i : Z) (w : World) :
  last_workflowId (snd (startGetUser USER_QUEUE failure_of i w))
  = "get-user-" ++ string_of_Z i ++ "-" ++ string_of_Z (clock w).
Proof.
  unfold startGetUser, bind, Date_now.
  erewrite last_workflowId_submitted;
    [|apply start_and_wait_submitted, getUserWorkflow_submitted].
  reflexivity.
Qed.

Lemma startGetAllUsers_workflowId
  (USER_QUEUE : string) (failure_of : JsError -> JsError)
  (params : GetAllUsersParams) (w : World) :
  last_workflowId (snd (startGetAllUsers USER_QUEUE failure_of params w))
  = "get-all-users-" ++ string_of_Z (clock w).
Proof.
  unfold startGetAllUsers, bind, Date_now.
  erewrite last_workflowId_submitted;
    [|apply start_and_wait_submitted, getAllUsersWorkflow_submitted].
  reflexivity.
Qed.

(** X16.  Requests for different operations never share a workflow id:
    whatever the inputs and the submission times, the ids built for
    create, update, get and list are pairwise different. *)
Theorem workflowIds_differ_across_operations
  (USER_QUEUE : string) (failure_of : JsError -> JsError)
  (userData : UserData) (i j : Z) (values : UserUpdateAttributes)
  (params : GetAllUsersParams) (w1 w2 w3 w4 : World) :
  let c := last_workflowId
             (snd (startCreateUser USER_QUEUE failure_of userData w1)) in
  let u := last_workflowId
             (snd (startUpdateUser USER_QUEUE failure_of i values w2)) in
  let g := last_workflowId (snd (startGetUser USER_QUEUE failure_of j w3)) in
  let l := last_workflowId
             (snd (startGetAllUsers USER_QUEUE failure_of params w4)) in
  c <> u /\ c <> g /\ c <> l /\ u <> g /\ u <> l /\ g <> l.
Proof.
  cbv zeta.
  rewrite startCreateUser_workflowId, startUpdateUser_workflowId,
    startGetUser_workflowId, startGetAllUsers_workflowId.
  cbn. repeat split; intros H; congruence.
Qed.

Lemma append_inj_l (p a b : string) : p ++ a = p ++ b -> a = b.
Proof.
  induction p as [|c p IH]; cbn; [trivial|].
  intros H. injection H as H. auto.
Qed.

Lemma append_inj_r (a b t : string) : a ++ t = b ++ t -> a = b.
Proof.
  revert b. induction a as [|c a IH]; intros [|c' b] H; cbn in H.
  - reflexivity.
  - apply (f_equal String.length) in H. cbn in H.
    rewrite length_append in H. lia.
  - apply (f_equal String.length) in H. cbn in H.
    rewrite length_append in H. lia.
  - injection H as -> H'. f_equal. now apply IH.
Qed.

Lemma string_of_Z_inj (a b : Z) : string_of_Z a = string_of_Z b -> a = b.
Proof.
  assert (Hparse : forall z,
            NilZero.int_of_string (string_of_Z z) = Some (Z.to_int z)).
  { intros z. apply NilZero.isi; destruct z; cbn; try discriminate.
    - intros [= H]. exact (DecimalPos.Unsigned.to_uint_nonnil _ H).
    - intros [= H]. exact (DecimalPos.Unsigned.to_uint_nonnil _ H). }
  intros H. apply DecimalZ.to_int_inj.
  pose proof (Hparse a) as Ha. rewrite H, Hparse in Ha. now injection Ha.
Qed.

(** X17.  Requests that differ in their key never share a workflow id,
    even when submitted in the same millisecond: two creates for
    different mobiles get different ids, and so do two updates, or two
    gets, for different record ids. *)
Theorem workflowIds_differ_across_keys
  (USER_QUEUE : string) (failure_of : JsError -> JsError)
  (a b : UserData) (i j : Z) (v v' : UserUpdateAttributes) (w w' : World) :
  clock w = clock w' ->
  (ud_mobile a <> ud_mobile b ->
   last_workflowId (snd (startCreateUser USER_QUEUE failure_of a w))
   <> last_workflowId (snd (startCreateUser USER_QUEUE failure_of b w')))
  /\ (i <> j ->
      last_workflowId (snd (startUpdateUser USER_QUEUE failure_of i v w))
      <> last_workflowId (snd (startUpdateUser USER_QUEUE failure_of j v' w'))
      /\ last_workflowId (snd (startGetUser USER_QUEUE failure_of i w))
         <> last_workflowId (snd (startGetUser USER_QUEUE failure_of j w'))).
Proof.
  intros Hc.
  rewrite !startCreateUser_workflowId, !startUpdateUser_workflowId,
    !startGetUser_workflowId, Hc.
  split.
  - intros Hne H. apply Hne. apply append_inj_l in H.
    now apply append_inj_r in H.
  - intros Hne.
    split; intros H; apply Hne; apply append_inj_l, append_inj_r in H;
      now apply string_of_Z_inj.
Qed.

Lemma workflowIds_differ_across_keys_witness :
  last_workflowId (snd (startCreateUser "user" (fun e => e) john w_two))
  <> last_workflowId
       (snd (startCreateUser "user" (fun e => e)
               (mkUserData "John Doe" "john@x.com" "999") w_three))
  /\ last_workflowId (snd (startGetUser "user" (fun e => e) 1 w_two))
     <> last_workflowId (snd (startGetUser "user" (fun e => e) 2 w_three)).
Proof.
  split.
  - refine (proj1 (workflowIds_differ_across_keys "user" (fun e => e)
                     john (mkUserData "John Doe" "john@x.com" "999")
                     1 2 rename rename w_two w_three eq_refl) _).
    discriminate.
  - refine (proj2 (proj2 (workflowIds_differ_across_keys "user" (fun e => e)
                            john john 1 2 rename rename w_two w_three eq_refl)
                         _)).
    discriminate.
Defined.

(** * The logging adapter *)

Lemma own_prop_set_prop (k k' : string) (v : JsValue) (o : JsObject) :
  own_prop k (set_prop k' v o)
  = if String.eqb k k' then Some v else own_prop k o.
Proof.
  induction o as [|[k0 v0] o IH]; cbn; [reflexivity|].
  destruct (String.eqb_spec k' k0) as [->|Hne]; cbn.
  - now destruct (String.eqb k k0).
  - rewrite IH. destruct (String.eqb_spec k k0) as [->|]; [|reflexivity].
    destruct (String.eqb_spec k0 k'); [congruence|reflexivity].
Qed.

Lemma own_prop_absent (k : string) (o : JsObject) :
  ~ In k (keys o) -> own_prop k o = None.
Proof.
  induction o as [|[k0 v0] o IH]; cbn; [reflexivity|].
  intros H. destruct (String.eqb_spec k k0) as [->|]; [tauto|].
  apply IH. tauto.
Qed.

Lemma own_prop_spread (k : string) (a b : JsObject) :
  NoDup (keys b) ->
  own_prop k (spread a b)
  = match own_prop k b with
    | Some v => Some v
    | None => own_prop k a
    end.
Proof.
  unfold spread. revert a.
  induction b as [|[k0 v0] b IH]; intros a Hnd; cbn; [reflexivity|].
  inversion Hnd as [|? ? Hnotin Hnd']; subst.
  rewrite IH by exact Hnd'. rewrite own_prop_set_prop.
  destruct (String.eqb_spec k k0) as [->|]; [|reflexivity].
  now rewrite (own_prop_absent k0 b Hnotin).
Qed.

(** X18.  What a log line carries: the debug, info, warn and error
    methods of the adapter log at the winston level of the same name, with
    the message unchanged and a meta in which every key has the value the
    call's attributes give it and, for keys the attributes do not have,
    the value of the logger's default meta. *)
Theorem logger_meta_precedence
  (this : WinstonTemporalLogger.t) (message : string) (attrs : JsObject)
  (k : string) :
  NoDup (keys attrs) ->
  let expected :=
    match own_prop k attrs with
    | Some v => Some v
    | None => own_prop k (WinstonTemporalLogger.defaultMeta this)
    end in
  let carries level (call : LogCall) :=
    lc_level call = level /\ lc_message call = message
    /\ own_prop k (lc_meta call) = expected in
  carries WDebug (WinstonTemporalLogger.debug this message attrs)
  /\ carries WInfo (WinstonTemporalLogger.info this message attrs)
  /\ carries WWarn (WinstonTemporalLogger.warn this message attrs)
  /\ carries WError (WinstonTemporalLogger.error this message attrs).
Proof.
  intros Hnd. cbv zeta. cbn.
  rewrite (own_prop_spread k _ attrs Hnd). repeat split.
Qed.

Lemma logger_meta_precedence_witness :
  own_prop "taskQueue"
    (lc_meta (WinstonTemporalLogger.info (createTemporalLogger worker_meta)
                "started" call_attrs))
  = Some (JStr "other")
  /\ own_prop "component"
       (lc_meta (WinstonTemporalLogger.info (createTemporalLogger worker_meta)
                   "started" call_attrs))
     = Some (JStr "temporal-worker").
Proof.
  assert (Hnd : NoDup (keys call_attrs)).
  { repeat constructor; cbn; intuition discriminate. }
  split.
  - exact (proj2 (proj2 (proj1 (proj2
             (logger_meta_precedence (createTemporalLogger worker_meta)
                "started" call_attrs "taskQueue" Hnd))))).
  - exact (proj2 (proj2 (proj1 (proj2
             (logger_meta_precedence (createTemporalLogger worker_meta)
                "started" call_attrs "component" Hnd))))).
Defined.

(** X19.  A trace call is logged at winston's debug level and always
    marked [temporalLevel: 'TRACE'], even when the attributes or the
    default meta carry a temporalLevel of their own; every other key reads
    as in the debug call with the same arguments. *)
Theorem trace_is_marked_debug
  (this : WinstonTemporalLogger.t) (message : string) (attrs : JsObject)
  (k : string) :
  lc_level (WinstonTemporalLogger.trace this message attrs) = WDebug
  /\ lc_message (WinstonTemporalLogger.trace this message attrs) = message
  /\ own_prop k (lc_meta (WinstonTemporalLogger.trace this message attrs))
     = if String.eqb k "temporalLevel" then Some (JStr "TRACE")
       else own_prop k
              (lc_meta (WinstonTemporalLogger.debug this message attrs)).
Proof.
  cbn. rewrite own_prop_set_prop. repeat split.
Qed.

(** X20.  Child loggers layer their meta: a line logged through
    [child(childMeta)] carries for every key the value of the call's
    attributes, else the child's meta, else the parent's default meta. *)
Theorem child_meta_precedence
  (this : WinstonTemporalLogger.t) (childMeta attrs : JsObject)
  (message k : string) :
  NoDup (keys childMeta) ->
  NoDup (keys attrs) ->
  own_prop k
    (lc_meta (WinstonTemporalLogger.info
                (WinstonTemporalLogger.child this childMeta) message attrs))
  = match own_prop k attrs with
    | Some v => Some v
    | None =>
        match own_prop k childMeta with
        | Some v => Some v
        | None => own_prop k (WinstonTemporalLogger.defaultMeta this)
        end
    end.
Proof.
  intros Hc Ha. cbn.
  now rewrite (own_prop_spread k _ attrs Ha), (own_prop_spread k _ childMeta Hc).
Qed.

Lemma child_meta_precedence_witness :
  own_prop "taskQueue"
    (lc_meta (WinstonTemporalLogger.info
                (WinstonTemporalLogger.child
                   (createTemporalLogger worker_meta)
                   [("taskQueue", JStr "child")])
                "started" []))
  = Some (JStr "child").
Proof.
  refine (child_meta_precedence (createTemporalLogger worker_meta)
            [("taskQueue", JStr "child")] [] "started" "taskQueue" _ _).
  - repeat constructor. intros [].
  - constructor.
Defined.

(** * The model's finder and the repository *)

Lemma In_insert_by_id (r x : UserAttributes) (l : list UserAttributes) :
  In x (insert_by_id r l) <-> x = r \/ In x l.
Proof.
  induction l as [|u l IH]; cbn.
  - intuition.
  - destruct (id r <=? id u); cbn; [intuition|].
    rewrite IH. intuition.
Qed.

Lemma In_order_by_id_asc (x : UserAttributes) (l : list UserAttributes) :
  In x (order_by_id_asc l) <-> In x l.
Proof.
  induction l as [|u l IH]; cbn; [tauto|].
  rewrite In_insert_by_id, IH. intuition.
Qed.

Lemma hd_error_firstn_1 {A} (l : list A) : hd_error (firstn 1 l) = hd_error l.
Proof.
  now destruct l.
Qed.

(** X21.  [User.getUser]: when the store answers, the finder returns the
    name and the email, and nothing else, of a visible record with the id,
    or null when no visible record carries it. *)
Theorem User_getUser_found_or_null (i : Z) (w : World) :
  next_fault w = None ->
  (exists r,
      In r (rows (table w)) /\ visible r = true /\ id r = i
      /\ fst (User_getUser i w)
         = Return (Some [("name", JStr (name r)); ("email", JStr (email r))]))
  \/ ((forall r, In r (rows (table w)) -> visible r = true -> id r <> i)
      /\ fst (User_getUser i w) = Return None).
Proof.
  intros Hq. unfold User_getUser, query. rewrite Hq. cbn [fst].
  rewrite hd_error_firstn_1.
  destruct (order_by_id_asc _) as [|r l] eqn:Hs.
  - right. split; [|reflexivity].
    intros r Hin Hv Hi.
    assert (Hr : In r (order_by_id_asc
                         (filter (selected [("id", JNum i)]) (rows (table w))))).
    { apply In_order_by_id_asc, filter_In. split; [exact Hin|].
      rewrite selected_id, Hv. cbn. now apply Z.eqb_eq. }
    rewrite Hs in Hr. exact Hr.
  - left. exists r.
    assert (Hr : In r (order_by_id_asc
                         (filter (selected [("id", JNum i)]) (rows (table w))))).
    { rewrite Hs. now left. }
    apply In_order_by_id_asc, filter_In in Hr as [Hin Hsel].
    rewrite selected_id in Hsel. apply andb_true_iff in Hsel as [Hv Hi].
    apply Z.eqb_eq in Hi. repeat split; trivial.
Qed.

Lemma User_getUser_found_or_null_witness :
  ((exists r,
       In r (rows (table w_carol_gone)) /\ visible r = true /\ id r = 3
       /\ fst (User_getUser 3 w_carol_gone)
          = Return (Some [("name", JStr (name r)); ("email", JStr (email r))]))
   \/ ((forall r, In r (rows (table w_carol_gone)) -> visible r = true ->
                  id r <> 3)
       /\ fst (User_getUser 3 w_carol_gone) = Return None))
  /\ fst (User_getUser 3 w_carol_gone) = Return None
  /\ fst (User_getUser 2 w_carol_gone)
     = Return (Some [("name", JStr "Bob"); ("email", JStr "bob@x.com")]).
Proof.
  split.
  - exact (User_getUser_found_or_null 3 w_carol_gone eq_refl).
  - split; reflexivity.
Defined.

Lemma filter_all_false {A} (p : A -> bool) (l : list A) :
  (forall x, In x l -> p x = false) -> filter p l = [].
Proof.
  induction l as [|a l IH]; cbn; [reflexivity|].
  intros H. rewrite (H a (or_introl eq_refl)). apply IH. auto.
Qed.

(** After a pass of [User.destroy] for id [i] no row is selected by a
    query for [i]. *)
Lemma destroyed_not_selected (i now : Z) (l : list UserAttributes)
  (x : UserAttributes) :
  In x (map (fun r => if selected [("id", JNum i)] r
                      then mark_deleted now r else r) l) ->
  selected [("id", JNum i)] x = false.
Proof.
  intros H. apply in_map_iff in H as (u & <- & _).
  destruct (selected [("id", JNum i)] u) eqn:Hs; [|exact Hs].
  reflexivity.
Qed.

Lemma deleteById_run (i : Z) (w : World) :
  next_fault w = None ->
  UserRepository.deleteById i w
  = (Return (List.length (filter (selected [("id", JNum i)]) (rows (table w)))),
     mkWorld
       (mkTable
          (map (fun r => if selected [("id", JNum i)] r
                         then mark_deleted (clock w) r else r)
               (rows (table w)))
          (next_id (table w)))
       (clock w) (tl (faults w)) (history w) (submitted w) (logs w)).
Proof.
  intros Hq. unfold UserRepository.deleteById, User_destroy, query.
  now rewrite Hq.
Qed.



(** X23.  Deleting twice: a second [deleteById] for the same id, at any
    later time, affects no row (it resolves to 0) and leaves the table,
    including the first deletion's time stamp, exactly as it was. *)
Theorem deleteById_twice (i : Z) (w : World) (later : Z) :
  next_fault w = None ->
  next_fault (consume w) = None ->
  let once := UserRepository.deleteById i w in
  let twice := UserRepository.deleteById i (set_clock later (snd once)) in
  fst twice = Return 0%nat /\ table (snd twice) = table (snd once).
Proof.
  intros Hq Hq'. cbv zeta. rewrite (deleteById_run i w Hq). cbn [snd].
  rewrite deleteById_run by exact Hq'.
  cbn [fst snd table rows next_id set_clock clock].
  split.
  - now rewrite (filter_all_false _ _ (destroyed_not_selected i (clock w) _)).
  - f_equal. rewrite <- (map_id (map _ (rows (table w)))) at 2.
    apply map_ext_in. intros u Hu.
    now rewrite (destroyed_not_selected i (clock w) _ _ Hu).
Qed.

Lemma deleteById_twice_witness :
  let once := UserRepository.deleteById 2 w_two in
  let twice := UserRepository.deleteById 2 (set_clock 2000 (snd once)) in
  fst twice = Return 0%nat /\ table (snd twice) = table (snd once).
Proof.
  exact (deleteById_twice 2 w_two 2000 eq_refl eq_refl).
Defined.

Lemma filter_selected_id_unique (i : Z) (l : list UserAttributes) :
  NoDup (map id l) ->
  (List.length (filter (selected [("id", JNum i)]) l) <= 1)%nat.
Proof.
  induction l as [|u l IH]; cbn; [lia|].
  intros Hnd. inversion Hnd as [|? ? Hnotin Hnd']; subst.
  destruct (selected [("id", JNum i)] u) eqn:Hs; [|now apply IH].
  rewrite filter_all_false; [cbn; lia|].
  intros x Hx. destruct (selected [("id", JNum i)] x) eqn:Hsx; [|reflexivity].
  exfalso. apply Hnotin.
  rewrite selected_id in Hs, Hsx.
  apply andb_true_iff in Hs as [_ Hs]. apply andb_true_iff in Hsx as [_ Hsx].
  apply Z.eqb_eq in Hs, Hsx. rewrite Hs, <- Hsx. now apply in_map.
Qed.

Lemma filter_nil_find {A} (p : A -> bool) (l : list A) :
  filter p l = [] <-> find p l = None.
Proof.
  induction l as [|a l IH]; cbn; [tauto|].
  destruct (p a); [split; discriminate|exact IH].
Qed.

(** X24.  [repository.update] with [returning], when the store answers.
    For an update that sets at least one column it resolves to the number
    of rows affected together with exactly those rows: each is a visible
    record that carried the id, with the given columns written to it and
    stamped with the time of the update, and is in the table afterwards;
    it affects no row precisely when no visible record carries the id, and
    at most one when ids are unique.  For an update that sets no column it
    resolves to the count 0 alone and the table is left as it was.  In
    both cases it writes to the table what updateRecord writes. *)
Theorem repository_update_returning
  (i : Z) (userData : UserUpdateAttributes) (w : World) :
  next_fault w = None ->
  let res := UserRepository.update i userData w in
  (no_values userData = false ->
   exists affected,
     fst res = Return (List.length affected, Some affected)
     /\ Forall (fun u => updated_on u = clock w
                         /\ In u (rows (table (snd res)))
                         /\ exists r, In r (rows (table w))
                                      /\ selected [("id", JNum i)] r = true
                                      /\ u = touch (clock w)
                                               (assign userData r))
               affected
     /\ (affected = [] <-> record_of i (table w) = None)
     /\ (NoDup (map id (rows (table w))) ->
         (List.length affected <= 1)%nat))
  /\ (no_values userData = true ->
      fst res = Return (0%nat, None) /\ table (snd res) = table w)
  /\ table (snd res) = table (snd (updateUserActivity i userData w)).
Proof.
  intros Hq. cbv zeta.
  unfold UserRepository.update, User_update_returning.
  split; [|split].
  - intros He. rewrite He. unfold query. rewrite Hq.
    cbn [fst snd table set_table rows].
    eexists. split; [reflexivity|]. split; [|split].
    + apply Forall_forall. intros x Hx.
      apply in_map_iff in Hx as (u & <- & Hu).
      pose proof Hu as Hu'. apply filter_In in Hu' as [Hin Hs].
      split; [reflexivity|]. split.
      * unfold rewritten. apply in_or_app. right.
        now apply (in_map (fun r => touch (clock w) (assign userData r))).
      * now exists u.
    + unfold record_of. rewrite <- filter_nil_find.
      split; intros H; [now apply map_eq_nil in H|now rewrite H].
    + intros Hnd. rewrite length_map. now apply filter_selected_id_unique.
  - intros He. rewrite He. split; reflexivity.
  - unfold next_fault in Hq. run.
    destruct (no_values userData); run; [reflexivity|].
    now rewrite Hq.
Qed.

Lemma repository_update_returning_witness :
  (exists affected,
     fst (UserRepository.update 1 rename w_carol_gone)
     = Return (List.length affected, Some affected)
     /\ Forall (fun u => updated_on u = 1000) affected
     /\ affected <> []
     /\ (List.length affected <= 1)%nat)
  /\ fst (UserRepository.update 3 rename w_carol_gone) = Return (0%nat, Some [])
  /\ fst (UserRepository.update 1 nothing w_carol_gone) = Return (0%nat, None)
  /\ table (snd (UserRepository.update 1 nothing w_carol_gone))
     = table w_carol_gone.
Proof.
  split; [|split].
  - destruct (repository_update_returning 1 rename w_carol_gone eq_refl)
      as (H & _ & _).
    destruct (H eq_refl) as (affected & Hr & Hall & He & Hlen).
    exists affected. split; [exact Hr|]. split; [|split].
    + apply (Forall_impl _ (fun u Hu => proj1 Hu) Hall).
    + intros Hnil. apply He in Hnil. discriminate Hnil.
    + apply Hlen. repeat constructor; cbn; intuition discriminate.
  - destruct (repository_update_returning 3 rename w_carol_gone eq_refl)
      as (H & _ & _).
    destruct (H eq_refl) as (affected & Hr & _ & He & _).
    rewrite Hr. rewrite (proj2 He eq_refl). reflexivity.
  - destruct (repository_update_returning 1 nothing w_carol_gone eq_refl)
      as (_ & H0 & _).
    exact (H0 eq_refl).
Defined.
